(** * TFCluster: driver-side lifecycle of a TensorFlowOnSpark cluster

    A shallow embedding of [hops/tensorflowonspark/TFCluster.py].

    - Python integers are [Z]; [range] is written out.
    - Python dictionaries ([tf_status], [cluster_template], the experiment
      document behind [experiment_json]) are [gmap string _]; the set
      [tb_nodes] is a [gset].
    - The module-level globals are one record, [Globals], threaded through
      every operation.
    - Calls into the engine, the audit sink and the node managers append an
      [Event] to a trace; what the engine answers (status polls, streaming
      termination, [server.done]) is read from oracle lists in [World].
      An exhausted oracle means the call is still blocked in its wait loop
      ([Starved]).
    - [logging] calls are not modelled. *)

From Stdlib Require Import ZArith Bool List.
From stdpp Require Import gmap strings list fin_maps pretty.

#[local] Set Warnings "-clear-no-such-hyp".

Local Open Scope Z_scope.

(** ** Python helpers *)

Module Py.

Inductive Exn : Type :=
| AssertionError
| AttributeError
| TypeError
| Exception (msg : string).

(** [range(a, b)] *)
Definition range (a b : Z) : list Z :=
  map (fun i : nat => a + Z.of_nat i) (seq 0%nat (Z.to_nat (b - a))).

(** truth value of an optional string argument, as in [if log_dir:] *)
Definition truthy (o : option string) : bool :=
  match o with
  | None => false
  | Some s => negb (String.eqb s "")
  end.

Definition nl : string := String (Ascii.ascii_of_nat 10) EmptyString.

End Py.

(** ** Data model *)

(** [InputMode]: integer constants of the class of the same name. *)
Module InputMode.
Definition TENSORFLOW : Z := 0.
Definition SPARK : Z := 1.
End InputMode.

(** One reservation, a dictionary with these keys in the source. *)
Record Node : Type := {
  host : string;
  executor_id : string;
  job_name : string;
  task_index : Z;
  addr : string * Z;
  authkey : string;
  tb_port : Z
}.

(** The document held (serialised) in [experiment_json]. [json.loads] and
    [json.dumps] are inverse on it, so the global is modelled by the
    dictionary itself. *)
Abbreviation ExperimentJson := (gmap string string).

Definition status_of (doc : ExperimentJson) : option string := doc !! "status".

Record ClusterMeta : Type := {
  meta_id : Z;
  cluster_template : gmap string (list Z);
  meta_num_executors : Z;
  default_fs : string;
  working_dir : string;
  server_addr : string * Z
}.

(** The module-level variables of lines 43-49. *)
Record Globals : Type := {
  tf_status : gmap string string;
  elastic_id : Z;
  experiment_json : option ExperimentJson;
  running : bool;
  app_id : option string;
  run_id : Z
}.

Definition initial_globals : Globals :=
  {| tf_status := ∅; elastic_id := 0; experiment_json := None;
     running := false; app_id := None; run_id := 0 |}.

Definition set_running (b : bool) (g : Globals) : Globals :=
  {| tf_status := tf_status g; elastic_id := elastic_id g;
     experiment_json := experiment_json g; running := b;
     app_id := app_id g; run_id := run_id g |}.

Definition set_experiment_json (j : option ExperimentJson) (g : Globals) : Globals :=
  {| tf_status := tf_status g; elastic_id := elastic_id g;
     experiment_json := j; running := running g;
     app_id := app_id g; run_id := run_id g |}.

Definition set_tf_status (s : gmap string string) (g : Globals) : Globals :=
  {| tf_status := s; elastic_id := elastic_id g;
     experiment_json := experiment_json g; running := running g;
     app_id := app_id g; run_id := run_id g |}.

Definition set_app_id (a : option string) (g : Globals) : Globals :=
  {| tf_status := tf_status g; elastic_id := elastic_id g;
     experiment_json := experiment_json g; running := running g;
     app_id := a; run_id := run_id g |}.

(** [elastic_id = elastic_id + 1; run_id = run_id + 1; running = True] *)
Definition bump_counters (g : Globals) : Globals :=
  {| tf_status := tf_status g; elastic_id := elastic_id g + 1;
     experiment_json := experiment_json g; running := true;
     app_id := app_id g; run_id := run_id g + 1 |}.

(** An RDD is its list of partitions. *)
Abbreviation RDD := (list (list string)).

(** Calls that leave the driver. [PutElastic a n d] is
    [util.put_elastic(project, a, 'dist' + str(n), d)]. *)
Inductive Event : Type :=
| PutElastic (app : option string) (dist : Z) (doc : option ExperimentJson)
| CancelAllJobs
| StopSparkContext
| SscStop (stopSparkContext stopGraceFully : bool)
| Sleep (seconds : Z)
| FeedJob (data : RDD) (qname : string)
| WorkerShutdownJob (workers : Z)
| ManagerConnect (address : string * Z) (key : string)
| GetQueue (qname : string)
| QueuePut (item : option string)
| QueueJoin
| ServerStart (expected : Z)
| NodeJob (executors : Z) (background : bool)
| ThreadStart.

(** Does the event stop the shared SparkContext? *)
Definition stops_context (e : Event) : bool :=
  match e with
  | StopSparkContext => true
  | SscStop stopSc _ => stopSc
  | _ => false
  end.


Definition is_audit_write (e : Event) : bool :=
  match e with
  | PutElastic _ _ _ => true
  | _ => false
  end.

(** ** The failure handler and the process-exit handler (lines 404-422)

    Both take the value of [datetime.now().isoformat()] read by the call and
    return the new globals with the calls made. *)

Definition exception_handler (now : string) (g : Globals) : Globals * list Event :=
  if running g && bool_decide (experiment_json g ≠ None) then
    match experiment_json g with
    | Some doc =>
        let doc := <["status" := "FAILED"]> doc in
        let doc := <["finished" := now]> doc in
        (set_experiment_json (Some doc) g,
         [PutElastic (app_id g) (elastic_id g) (Some doc)])
    | None => (g, [])
    end
  else (g, []).

Definition exit_handler (now : string) (g : Globals) : Globals * list Event :=
  if running g && bool_decide (experiment_json g ≠ None) then
    match experiment_json g with
    | Some doc =>
        let doc := <["status" := "KILLED"]> doc in
        let doc := <["finished" := now]> doc in
        (set_experiment_json (Some doc) g,
         [PutElastic (app_id g) (elastic_id g) (Some doc)])
    | None => (g, [])
    end
  else (g, []).

(** ** The cluster handle *)

Record TFCluster : Type := {
  cluster_info : list Node;
  cluster_meta : ClusterMeta;
  input_mode : Z;
  queues : list string
}.

(** ** [TFCluster.train] (lines 71-103)

    The data handed to [train] is either an RDD or a DStream; a DStream is
    the sequence of micro-batch RDDs that arrive on it. The result is the
    list of feed jobs the call gives rise to: for an RDD the one job run by
    the call, for a DStream the jobs run by the registered [foreachRDD]
    callback, one per arrival. *)

Inductive Data : Type :=
| Rdd (dataRDD : RDD)
| DStream (arrivals : list RDD).

(** [sc.union(rdds)]: the partitions of the operands, in order. *)
Definition sc_union (rdds : list RDD) : RDD := concat rdds.

(** The rows of an RDD, in partition order. *)
Definition rows (r : RDD) : list string := concat r.

Definition train (self : TFCluster) (data : Data) (num_epochs : Z) (qname : string)
  : Py.Exn + list Event :=
  if negb (input_mode self =? InputMode.SPARK) then inl Py.AssertionError
  else if negb (bool_decide (qname ∈ queues self)) then inl Py.AssertionError
  else if negb (0 <=? num_epochs) then inl Py.AssertionError
  else
    match data with
    | DStream arrivals =>
        inr (map (fun rdd => FeedJob rdd qname) arrivals)
    | Rdd dataRDD =>
        let num_epochs := if num_epochs =? 0 then 10 else num_epochs in
        let rdds :=
          fold_left (fun rdds (_ : Z) => rdds ++ [dataRDD]) (Py.range 0 num_epochs) [] in
        let unionRDD := sc_union rdds in
        inr [FeedJob unionRDD qname]
    end.

(** ** The driver's view of its collaborators *)

(** [SparkStageInfo], of which only [numActiveTasks] is read. *)
Record StageInfo : Type := { numActiveTasks : Z }.

(** What one round of status queries answers: [getActiveJobsIds()], and for
    each id of [getActiveStageIds()] the answer of [getStageInfo(id)]
    ([None] when the stage is no longer known). *)
Record Poll : Type := {
  active_jobs : list Z;
  active_stages : list (Z * option StageInfo)
}.

(** Globals plus the answers still to come. *)
Record World : Type := {
  globals : Globals;
  polls : list Poll;
  awaits : list bool;
  server_done : list bool;
  now : string
}.

Definition set_globals (g : Globals) (w : World) : World :=
  {| globals := g; polls := polls w; awaits := awaits w;
     server_done := server_done w; now := now w |}.

Definition set_polls (ps : list Poll) (w : World) : World :=
  {| globals := globals w; polls := ps; awaits := awaits w;
     server_done := server_done w; now := now w |}.

Definition set_awaits (aw : list bool) (w : World) : World :=
  {| globals := globals w; polls := polls w; awaits := aw;
     server_done := server_done w; now := now w |}.

Definition set_server_done (ds : list bool) (w : World) : World :=
  {| globals := globals w; polls := polls w; awaits := awaits w;
     server_done := ds; now := now w |}.

(** Outcome of a driver call: it returns, it raises, or it is still waiting
    when the recorded answers end. Each carries the calls made so far. *)
Inductive Res (A : Type) : Type :=
| Ret (a : A) (w : World) (evs : list Event)
| Exc (e : Py.Exn) (w : World) (evs : list Event)
| Starved (w : World) (evs : list Event).

Arguments Ret {A} a w evs.
Arguments Exc {A} e w evs.
Arguments Starved {A} w evs.

Definition M (A : Type) : Type := World -> Res A.

Definition ret {A} (a : A) : M A := fun w => Ret a w [].

Definition bind {A B} (m : M A) (f : A -> M B) : M B :=
  fun w =>
    match m w with
    | Ret a w1 e1 =>
        match f a w1 with
        | Ret b w2 e2 => Ret b w2 (e1 ++ e2)
        | Exc x w2 e2 => Exc x w2 (e1 ++ e2)
        | Starved w2 e2 => Starved w2 (e1 ++ e2)
        end
    | Exc x w1 e1 => Exc x w1 e1
    | Starved w1 e1 => Starved w1 e1
    end.

#[global] Instance M_ret : MRet M := @ret.
#[global] Instance M_bind : MBind M := fun A B f m => bind m f.

Definition raise {A} (e : Py.Exn) : M A := fun w => Exc e w [].
Definition starve {A} : M A := fun w => Starved w [].
Definition emit (evs : list Event) : M unit := fun w => Ret tt w evs.
Definition get_globals : M Globals := fun w => Ret (globals w) w [].
Definition put_globals (g : Globals) : M unit := fun w => Ret tt (set_globals g w) [].
Definition put_polls (ps : list Poll) : M unit := fun w => Ret tt (set_polls ps w) [].
Definition put_awaits (aw : list bool) : M unit := fun w => Ret tt (set_awaits aw w) [].

(** hand the answers still to come to a polling loop *)
Definition with_polls {A} (loop : list Poll -> M A) : M A := fun w => loop (polls w) w.
Definition with_awaits {A} (loop : list bool -> M A) : M A := fun w => loop (awaits w) w.

(** next value read from [self.server.done] *)
Definition read_server_done : M bool :=
  fun w => match server_done w with
           | [] => Starved w []
           | d :: rest => Ret d (set_server_done rest w) []
           end.

(** ** [TFCluster.shutdown] (lines 128-217) *)

(** Lines 137-142. *)
Definition identify (cluster_info : list Node) : list Node * list Node :=
  fold_left
    (fun (acc : list Node * list Node) node =>
       if String.eqb (job_name node) "ps"
       then (acc.1 ++ [node], acc.2)
       else (acc.1, acc.2 ++ [node]))
    cluster_info ([], []).

(** Lines 146-152. The loop runs once per answer of
    [awaitTerminationOrTimeout]; [server.done] is read only where the
    short-circuiting [and]/[or] evaluate it. *)
Fixpoint streaming_wait (answers : list bool) : M unit :=
  match answers with
  | [] => starve
  | done :: rest =>
      if done then put_awaits rest
      else
        d1 ← read_server_done;
        (if d1 : bool then emit [SscStop false true] else ret tt);;
        d2 ← read_server_done;
        if d2 : bool then put_awaits rest
        else streaming_wait rest
  end.

(** Lines 164-170: the scan of the active stages of one poll. *)
Fixpoint scan_stages (nps : Z) (stages : list (Z * option StageInfo))
    (count : Z) (done : bool) : M (Z * bool) :=
  match stages with
  | [] => ret (count, done)
  | (_, None) :: _ => raise Py.AttributeError
  | (_, Some si) :: rest =>
      if numActiveTasks si =? nps then
        let count := count + 1 in
        let done := 3 <=? count in
        emit [Sleep 5];;
        scan_stages nps rest count done
      else scan_stages nps rest count done
  end.

(** Lines 157-174: the status-polling loop of TENSORFLOW mode. *)
Fixpoint tf_wait (nps : Z) (answers : list Poll) (count : Z) : M unit :=
  match answers with
  | [] => fun w => Starved (set_polls [] w) []
  | p :: rest =>
      if 0 <? Z.of_nat (length (active_jobs p)) then
        r ← scan_stages nps (active_stages p) count false;
        if (r : Z * bool).2 then put_polls rest
        else tf_wait nps rest r.1
      else
        g ← get_globals;
        put_globals (set_running false g);;
        put_polls rest
  end.

(** Lines 211-217. *)
Fixpoint final_wait (answers : list Poll) : M unit :=
  match answers with
  | [] => fun w => Starved (set_polls [] w) [Sleep 5]
  | p :: rest =>
      emit [Sleep 5];;
      if Z.of_nat (length (active_jobs p)) =? 0
      then put_polls rest
      else final_wait rest
  end.

(** Modelled from the spec: [util.finalize_experiment] lives in
    [hops/util.py], which is not part of the sources at hand. The spec says
    of this step that it finalizes the experiment record as FINISHED if not
    already FAILED. With no document to finalize the call cannot succeed. *)
Definition finalize_experiment (experiment_json : option ExperimentJson)
  : Py.Exn + ExperimentJson :=
  match experiment_json with
  | None => inl Py.TypeError
  | Some doc =>
      if bool_decide (status_of doc = Some "FAILED") then inr doc
      else inr (<["status" := "FINISHED"]> doc)
  end.

(** Lines 202-208, for one node. *)
Definition stop_ps (node : Node) : list Event :=
  [ManagerConnect (addr node) (authkey node); GetQueue "control";
   QueuePut None; QueueJoin].

(** Lines 144-183: the wait that depends on the mode. [ssc] tells whether a
    StreamingContext was passed. *)
Definition drain (self : TFCluster) (ssc : bool) : M unit :=
  let '(ps_list, worker_list) := identify (cluster_info self) in
  if ssc then
    with_awaits streaming_wait
  else
    (if input_mode self =? InputMode.TENSORFLOW
     then with_polls (fun answers => tf_wait (Z.of_nat (length ps_list)) answers 0)
     else ret tt);;
    let workers := Z.of_nat (length worker_list) in
    emit [WorkerShutdownJob workers].

(** A call of one of the two handlers from the driver. *)
Definition call_handler (handler : string -> Globals -> Globals * list Event) : M unit :=
  fun w =>
    let r := handler (now w) (globals w) in
    Ret tt (set_globals r.1 w) r.2.

(** Lines 186-189. *)
Definition on_error : M unit :=
  g ← get_globals;
  if bool_decide ("error" ∈ dom (tf_status g)) then
    call_handler exception_handler;;
    emit [CancelAllJobs]
  else ret tt.

(** Lines 194-196. *)
Definition finalize : M unit :=
  g ← get_globals;
  match finalize_experiment (experiment_json g) with
  | inl e => raise e
  | inr doc =>
      put_globals (set_experiment_json (Some doc) g);;
      emit [PutElastic (app_id g) (elastic_id g) (Some doc)]
  end.

Definition shutdown (self : TFCluster) (ssc : bool) : M unit :=
  let '(ps_list, worker_list) := identify (cluster_info self) in
  drain self ssc;;
  on_error;;
  finalize;;
  emit (flat_map stop_ps ps_list);;
  with_polls final_wait.

(** ** [run] (lines 233-401) *)

Record RunArgs : Type := {
  num_executors : Z;
  num_ps : Z;
  arg_input_mode : Z;
  log_dir : option string;
  driver_ps_nodes : bool;
  master_node : option string;
  reservation_timeout : Z;
  name : string;
  local_logdir : bool;
  arg_queues : list string
}.

(** What the environment of one call of [run] supplies: the values read
    from the SparkContext and the operating system, and what the executors
    send to the reservation server. [registrations] lists, second by second,
    the reservations that arrive. *)
Record RunEnv : Type := {
  fs_defaultFS : string;
  cwd : string;
  applicationId : string;
  listen_addr : string * Z;
  randbits : Z;
  gpu_signals : list bool;
  registrations : list (list Node)
}.

Inductive RunResult : Type :=
| Returned (cluster : TFCluster)
| Raised (e : Py.Exn)
| Blocked.

(** Lines 275-282. *)
Definition build_cluster_template (num_ps num_executors : Z) (master_node : option string)
  : gmap string (list Z) :=
  let cluster_template : gmap string (list Z) := ∅ in
  let cluster_template := <["ps" := Py.range 0 num_ps]> cluster_template in
  match master_node with
  | None => <["worker" := Py.range num_ps num_executors]> cluster_template
  | Some master_node =>
      let cluster_template :=
        <[master_node := Py.range num_ps (num_ps + 1)]> cluster_template in
      if num_ps + 1 <? num_executors
      then <["worker" := Py.range (num_ps + 1) num_executors]> cluster_template
      else cluster_template
  end.

(** Lines 286-289. *)
Definition strip_root_slash (defaultFS : string) : string :=
  if String.prefix "file://" defaultFS
     && (7 <? Z.of_nat (String.length defaultFS))
     && bool_decide (String.substring (String.length defaultFS - 1) 1 defaultFS = "/")
  then String.substring 0 (String.length defaultFS - 1) defaultFS
  else defaultFS.

(** Modelled from the spec: [reservation.Server.await_gpu_check] lives in
    [hops/tensorflowonspark/reservation.py], which is not part of the
    sources at hand. The spec says the coordinator waits, with no timeout,
    until every expected node has reported its capability signal and then
    returns the aggregate list. [signals] are the signals that ever arrive;
    [None] is a wait that never ends. *)
Definition await_gpu_check (expected : Z) (signals : list bool) : option (list bool) :=
  if Z.of_nat (length signals) <? expected then None
  else Some (take (Z.to_nat expected) signals).

(** The exception raised when the reservations time out; the spec does not
    fix its text. *)
Definition reservation_timeout_error : Py.Exn :=
  Py.Exception "timed out waiting for reservations to complete".

(** The reservations received within [timeout] seconds. *)
Definition registered_within (timeout : Z) (registrations : list (list Node)) : list Node :=
  concat (take (Z.to_nat timeout) registrations).

(** Modelled from the spec: [reservation.Server.await_reservations] lives in
    [hops/tensorflowonspark/reservation.py], which is not part of the
    sources at hand. The spec says the coordinator waits until every
    expected node has submitted its record or until the timeout elapses,
    whichever comes first; a timeout with fewer than N records is an
    exception raised to the caller of [run]; on success the full registry is
    returned as an ordered sequence. *)
Definition await_reservations (expected timeout : Z) (registrations : list (list Node))
  : Py.Exn + list Node :=
  let received := registered_within timeout registrations in
  if Z.of_nat (length received) <? expected then inl reservation_timeout_error
  else inr (take (Z.to_nat expected) received).

(** Modelled from the spec: [util.populate_experiment] lives in
    [hops/util.py], which is not part of the sources at hand. The spec says
    the experiment record starts in state RUNNING; the run's name is kept
    with it. *)
Definition populate_experiment (name : string) : ExperimentJson :=
  <["status" := "RUNNING"]> (<["name" := name]> ∅).

(** The text of the exception of lines 382-386. *)
Definition duplicate_message (host executor_id : string) : string :=
  ("Duplicate cluster node id detected (host=" +:+ host +:+ ", executor_id="
     +:+ executor_id +:+ ")")
  +:+ ("Please ensure that:" +:+ Py.nl)
  +:+ ("1. Number of executors >= number of TensorFlow nodes" +:+ Py.nl)
  +:+ ("2. Number of tasks per executors is 1" +:+ Py.nl)
  +:+ "3, TFCluster.shutdown() is successfully invoked when done.".

Definition node_id (node : Node) : string * string := (host node, executor_id node).

(** Lines 378-388: [None] when the loop ends without raising. *)
Fixpoint check_duplicates (cluster_info : list Node) (tb_nodes : gset (string * string))
  : option Py.Exn :=
  match cluster_info with
  | [] => None
  | node :: rest =>
      let node_id := node_id node in
      if bool_decide (node_id ∈ tb_nodes)
      then Some (Py.Exception (duplicate_message node_id.1 node_id.2))
      else check_duplicates rest ({[node_id]} ∪ tb_nodes)
  end.

Definition driver_ps_nodes_error : Py.Exn :=
  Py.Exception "running PS nodes on driver is not supported and not needed on Hops Hadoop, since we have GPU scheduling.".

Definition log_dir_error : Py.Exn :=
  Py.Exception "No need to specify log_dir directory, we save TensorBoard events in the directory returned by tensorboard.logdir for you".

(** The driver's side of [run]. The background thread is started by the
    [ThreadStart] event; its body is [_start] below. Left out are the calls
    whose results are only logged or passed on: [sc.parallelize] (line 310),
    [util.version_resources] (line 315) and the search for the TensorBoard
    URL (lines 362-373). *)
Definition run (args : RunArgs) (env : RunEnv) (g : Globals)
  : RunResult * Globals * list Event :=
  let g := bump_counters g in
  if negb (num_ps args <? num_executors args) then (Raised Py.AssertionError, g, [])
  else if driver_ps_nodes args then (Raised driver_ps_nodes_error, g, [])
  else if Py.truthy (log_dir args) then (Raised log_dir_error, g, [])
  else
    let cluster_template :=
      build_cluster_template (num_ps args) (num_executors args) (master_node args) in
    let defaultFS := strip_root_slash (fs_defaultFS env) in
    let working_dir := cwd env in
    let evs := [ServerStart (num_executors args)] in
    let server_addr := listen_addr env in
    let cluster_meta :=
      {| meta_id := randbits env; cluster_template := cluster_template;
         meta_num_executors := num_executors args; default_fs := defaultFS;
         working_dir := working_dir; server_addr := server_addr |} in
    let g := set_app_id (Some (applicationId env)) g in
    let g := set_experiment_json None g in
    let g := set_experiment_json (Some (populate_experiment (name args))) g in
    let evs := evs ++ [PutElastic (app_id g) (elastic_id g) (experiment_json g)] in
    let evs := evs ++ [ThreadStart] in
    match await_gpu_check (num_executors args) (gpu_signals env) with
    | None => (Blocked, g, evs)
    | Some gpus_present =>
        match await_reservations (num_executors args) (reservation_timeout args)
                (registrations env) with
        | inl e => (Raised e, g, evs)
        | inr cluster_info =>
            match check_duplicates cluster_info ∅ with
            | Some e => (Raised e, g, evs)
            | None =>
                let cluster :=
                  {| cluster_info := cluster_info; cluster_meta := cluster_meta;
                     input_mode := arg_input_mode args; queues := arg_queues args |} in
                (Returned cluster, g, evs)
            end
        end
    end.

(** ** The background thread (lines 324-339)

    [bootstrap] is what [nodeRDD.foreachPartition(TFSparkNode.run(...))]
    does in the thread: [None] when it returns, [Some e] when it raises the
    exception [e] (an instance of [Exception]). The dictionary [status] the
    thread writes to is the global [tf_status] itself. The first component
    of the result is the exception that leaves the thread, if any. *)

Definition str (e : Py.Exn) : string :=
  match e with
  | Py.Exception msg => msg
  | _ => ""
  end.

Definition _start (args : RunArgs) (bootstrap : option Py.Exn) (now : string) (g : Globals)
  : option Py.Exn * Globals * list Event :=
  let job := NodeJob (num_executors args)
               (arg_input_mode args =? InputMode.SPARK) in
  match bootstrap with
  | None => (None, g, [job])
  | Some e =>
      let g := set_tf_status (<["error" := str e]> (tf_status g)) g in
      let r := exception_handler now g in
      (None, r.1, job :: r.2)
  end.

(** ** Role ranges *)

(** Role [role] of the table has index [i] in its range. *)
Definition covers (tpl : gmap string (list Z)) (role : string) (i : Z) : Prop :=
  ∃ rng, tpl !! role = Some rng ∧ i ∈ rng.

(** A role range is well formed for [n] nodes. *)
Definition range_ok (n : Z) (rng : list Z) : Prop :=
  NoDup rng ∧ ∀ i, i ∈ rng → 0 ≤ i < n.

(** The ranges of the table partition [[0, n)]: every index below [n] is in
    the range of exactly one role, no range repeats an index, and no range
    holds anything else. *)
Definition partitions (tpl : gmap string (list Z)) (n : Z) : Prop :=
  (∀ i, 0 ≤ i < n →
        ∃ role, covers tpl role i ∧ ∀ role', covers tpl role' i → role' = role)
  ∧ (∀ role rng, tpl !! role = Some rng → range_ok n rng).

(** ** The status-polling loop *)

(** The stage answers "as many active tasks as parameter servers". *)
Definition stage_matches (nps : Z) (stage : Z * option StageInfo) : bool :=
  match stage.2 with
  | Some si => numActiveTasks si =? nps
  | None => false
  end.

(** Number of matching stages among those of one poll, and over polls. *)
Definition matching (nps : Z) (stages : list (Z * option StageInfo)) : Z :=
  Z.of_nat (length (List.filter (stage_matches nps) stages)).

Definition total_matching (nps : Z) (answers : list Poll) : Z :=
  foldr (fun p acc => matching nps (active_stages p) + acc) 0 answers.

(** The condition of the loop holds at a poll: some active stage matches. *)
Definition poll_matches (nps : Z) (p : Poll) : bool :=
  existsb (stage_matches nps) (active_stages p).

(** An engine that still has jobs and knows every stage it lists. *)
Definition busy (p : Poll) : Prop :=
  active_jobs p ≠ [] ∧ Forall (fun stage => is_Some stage.2) (active_stages p).

(** The loop, started on [answers], returns on reading the last of them. *)
Definition completes_on (nps : Z) (answers : list Poll) (w : World) : Prop :=
  ∃ w' evs, tf_wait nps answers 0 w = Ret tt w' evs ∧ polls w' = [].

(** C1 as the spec words it: completion is declared only on a poll without
    active jobs or on the third of three consecutive matching polls. *)
Definition three_consecutive_rule : Prop :=
  ∀ nps answers w,
    completes_on nps answers w →
    (∃ p, last answers = Some p ∧ active_jobs p = [])
    ∨ (∃ before a b c, answers = before ++ [a; b; c]
         ∧ poll_matches nps a = true ∧ poll_matches nps b = true
         ∧ poll_matches nps c = true).

(** One job, one stage, with the given number of active tasks. *)
Definition one_stage (tasks : Z) : Poll :=
  {| active_jobs := [0]; active_stages := [(0, Some {| numActiveTasks := tasks |})] |}.

Definition idle : Poll := {| active_jobs := []; active_stages := [] |}.

Definition world_of (g : Globals) (answers : list Poll) : World :=
  {| globals := g; polls := answers; awaits := []; server_done := [];
     now := "2018-01-01T00:00:00" |}.

(** ** Scenarios used below *)

Definition node (h x job : string) (i port : Z) : Node :=
  {| host := h; executor_id := x; job_name := job; task_index := i;
     addr := (h, port); authkey := "secret"; tb_port := 0 |}.

(** plan(totalNodes = 4, reservedCount = 1): one "ps" and three workers. *)
Definition four_nodes : list Node :=
  [node "host0" "1" "ps" 0 5000; node "host1" "2" "worker" 0 5001;
   node "host2" "3" "worker" 1 5002; node "host3" "4" "worker" 2 5003].

Definition meta4 : ClusterMeta :=
  {| meta_id := 42; cluster_template := build_cluster_template 1 4 None;
     meta_num_executors := 4; default_fs := "hdfs://namenode";
     working_dir := "/srv"; server_addr := ("driver", 4000) |}.

Definition cluster4 (mode : Z) : TFCluster :=
  {| cluster_info := four_nodes; cluster_meta := meta4; input_mode := mode;
     queues := ["input"; "output"; "error"] |}.

(** Three rows in two partitions. *)
Definition three_rows : RDD := [["r1"; "r2"]; ["r3"]].

Definition interleaved : list Poll :=
  [one_stage 1; one_stage 2; one_stage 1; one_stage 2; one_stage 1].

Definition two_then_idle : list Poll := [one_stage 1; one_stage 1; idle].

Definition is_ps (node : Node) : bool := String.eqb (job_name node) "ps".

(** No event of the list stops the SparkContext. *)
Definition context_kept (evs : list Event) : Prop :=
  Forall (fun e => stops_context e = false) evs.

(** The document the failure handler writes over [doc]. *)
Definition failed_doc (now : string) (doc : ExperimentJson) : ExperimentJson :=
  <["finished" := now]> (<["status" := "FAILED"]> doc).

Definition args4 (mode : Z) : RunArgs :=
  {| num_executors := 4; num_ps := 1; arg_input_mode := mode; log_dir := None;
     driver_ps_nodes := false; master_node := None; reservation_timeout := 600;
     name := "mnist"; local_logdir := false;
     arg_queues := ["input"; "output"; "error"] |}.

(** All four nodes report and register in the first second. *)
Definition env4 : RunEnv :=
  {| fs_defaultFS := "hdfs://namenode"; cwd := "/srv";
     applicationId := "application_1"; listen_addr := ("driver", 4000);
     randbits := 42; gpu_signals := [false; false; false; false];
     registrations := [four_nodes] |}.

(** The globals of a run in progress whose [tf_status] holds an error. *)
Definition error_globals : Globals :=
  {| tf_status := {["error" := "boom"]}; elastic_id := 2;
     experiment_json := Some (populate_experiment "mnist"); running := true;
     app_id := Some "application_1"; run_id := 2 |}.

(** The globals [run] leaves behind on its first call. *)
Definition running_globals : Globals :=
  {| tf_status := ∅; elastic_id := 1;
     experiment_json := Some (populate_experiment "mnist"); running := true;
     app_id := Some "application_1"; run_id := 1 |}.

(** The document of [running_globals] once finalized. *)
Definition finished_doc : ExperimentJson :=
  <["status" := "FINISHED"]> (populate_experiment "mnist").

(** [running_globals] after a [shutdown] outside TENSORFLOW mode. *)
Definition finished_globals : Globals :=
  set_experiment_json (Some finished_doc) running_globals.

Definition bad_args : RunArgs :=
  {| num_executors := 1; num_ps := 1; arg_input_mode := InputMode.TENSORFLOW;
     log_dir := None; driver_ps_nodes := false; master_node := None;
     reservation_timeout := 600; name := "mnist"; local_logdir := false;
     arg_queues := ["input"; "output"; "error"] |}.

(** ** Preconditions of the registration phase *)

(** The call passes the checks of lines 266-272 and the capability check
    completes. *)
Definition reaches_registration (args : RunArgs) (env : RunEnv) : Prop :=
  num_ps args < num_executors args
  ∧ driver_ps_nodes args = false
  ∧ Py.truthy (log_dir args) = false
  ∧ is_Some (await_gpu_check (num_executors args) (gpu_signals env)).

(** ... and the registration phase completes with registry [reg]. *)
Definition completes_registry (args : RunArgs) (env : RunEnv) (reg : list Node) : Prop :=
  reaches_registration args env
  ∧ await_reservations (num_executors args) (reservation_timeout args)
      (registrations env) = inr reg.

(** The same executor registers twice. *)
Definition duplicated_nodes : list Node :=
  [node "host0" "1" "ps" 0 5000; node "host1" "2" "worker" 0 5001;
   node "host1" "2" "worker" 1 5002; node "host3" "4" "worker" 2 5003].

Definition env_duplicated : RunEnv :=
  {| fs_defaultFS := "hdfs://namenode"; cwd := "/srv";
     applicationId := "application_1"; listen_addr := ("driver", 4000);
     randbits := 42; gpu_signals := [false; false; false; false];
     registrations := [duplicated_nodes] |}.

(** Only three of the four nodes ever report a capability signal, and only
    those three register. *)
Definition env_three_report : RunEnv :=
  {| fs_defaultFS := "hdfs://namenode"; cwd := "/srv";
     applicationId := "application_1"; listen_addr := ("driver", 4000);
     randbits := 42; gpu_signals := [false; false; false];
     registrations := [take 3 four_nodes] |}.

(** Only three of the four nodes ever register. *)
Definition env_late : RunEnv :=
  {| fs_defaultFS := "hdfs://namenode"; cwd := "/srv";
     applicationId := "application_1"; listen_addr := ("driver", 4000);
     randbits := 42; gpu_signals := [false; false; false; false];
     registrations := [take 3 four_nodes] |}.

(** ** Labels, log directories and TensorBoard URLs *)

(** [str(n)] for a Python integer is its decimal notation, which is what
    stdpp's [pretty] prints. *)
Definition py_str (n : Z) : string := pretty n.

(** The third argument of [util.put_elastic]: ['dist' + str(elastic_id)]. *)
Definition dist_label (elastic_id : Z) : string := "dist" +:+ py_str elastic_id.

(** Lines 229-231. [experiments_dir] is what
    [hopshdfs.get_experiments_dir()] returns. *)
Definition get_logdir (experiments_dir app_id : string) (run_id : Z) : string :=
  experiments_dir +:+ "/" +:+ app_id +:+ "/tensorflowonspark/run." +:+ py_str run_id.

(** ["http://{0}:{1}".format(host, tb_port)] *)
Definition format_tb_url (host : string) (tb_port : Z) : string :=
  "http://" +:+ host +:+ ":" +:+ py_str tb_port.

(** Lines 362-366 of [run]. *)
Definition find_tb_url (cluster_info : list Node) : option string :=
  fold_left
    (fun (tb_url : option string) node =>
       if negb (tb_port node =? 0)
       then Some (format_tb_url (host node) (tb_port node))
       else tb_url)
    cluster_info None.

(** ** Outcomes of driver calls *)

Definition outcome_world {A} (r : Res A) : World :=
  match r with
  | Ret _ w _ | Exc _ w _ | Starved w _ => w
  end.

Definition outcome_events {A} (r : Res A) : list Event :=
  match r with
  | Ret _ _ evs | Exc _ _ evs | Starved _ evs => evs
  end.

(** Whatever the outcome of [m], the world it leaves is related by [R] to
    the one it started in and every call it made satisfies [Q]. *)
Definition respects {A} (R : World -> World -> Prop) (Q : Event -> Prop) (m : M A) : Prop :=
  ∀ w, R w (outcome_world (m w)) ∧ Forall Q (outcome_events (m w)).

(** The calls of the mode-specific wait. *)
Definition wait_event (e : Event) : Prop :=
  e = Sleep 5 ∨ e = SscStop false true ∨ ∃ n, e = WorkerShutdownJob n.

(** The globals are the same up to [running], which may have been cleared. *)
Definition running_cleared (w w' : World) : Prop :=
  (globals w' = globals w ∨ globals w' = set_running false (globals w))
  ∧ now w' = now w.

(** What [shutdown] leaves alone: the error status, the counters and the
    application id; [running] is never set. *)
Definition keeps_identity (w w' : World) : Prop :=
  tf_status (globals w') = tf_status (globals w)
  ∧ elastic_id (globals w') = elastic_id (globals w)
  ∧ run_id (globals w') = run_id (globals w)
  ∧ app_id (globals w') = app_id (globals w)
  ∧ (running (globals w') = true → running (globals w) = true).

(** Only the streaming oracles are consumed. *)
Definition streaming_only (w w' : World) : Prop :=
  globals w' = globals w ∧ polls w' = polls w ∧ now w' = now w.

(** Only status polls are consumed. *)
Definition globals_kept (w w' : World) : Prop :=
  globals w' = globals w ∧ now w' = now w.

Definition is_cancel (e : Event) : bool :=
  match e with
  | CancelAllJobs => true
  | _ => false
  end.

(** A cluster whose chief is named "master". *)
Definition nodes_with_master : list Node :=
  [node "host0" "1" "ps" 0 5000; node "host1" "2" "master" 0 5001;
   node "host2" "3" "worker" 0 5002].

Definition cluster_with_master : TFCluster :=
  {| cluster_info := nodes_with_master; cluster_meta := meta4;
     input_mode := InputMode.SPARK; queues := ["input"; "output"; "error"] |}.

(** * Properties *)

(** ** Role ranges *)

Lemma elem_of_range a b i : i ∈ Py.range a b ↔ a ≤ i < b.
Proof.
  unfold Py.range. rewrite list_elem_of_fmap. split.
  - intros (k & -> & Hk). apply elem_of_seq in Hk. lia.
  - intros H. exists (Z.to_nat (i - a)). split; [lia|].
    apply elem_of_seq. lia.
Qed.

Lemma NoDup_range a b : NoDup (Py.range a b).
Proof.
  unfold Py.range. apply NoDup_fmap_2; [|apply NoDup_seq].
  intros x y H. lia.
Qed.

Lemma range_singleton a : Py.range a (a + 1) = [a].
Proof.
  unfold Py.range. replace (a + 1 - a) with 1 by lia.
  simpl. f_equal. lia.
Qed.

Lemma range_length a b : length (Py.range a b) = Z.to_nat (b - a).
Proof. unfold Py.range. by rewrite length_map, length_seq. Qed.

Lemma covers_empty role i : covers ∅ role i ↔ False.
Proof. split; [|done]. intros (rng & Hl & _). by rewrite lookup_empty in Hl. Qed.

Lemma covers_insert tpl k v role i :
  covers (<[k := v]> tpl) role i ↔ (role = k ∧ i ∈ v) ∨ (role ≠ k ∧ covers tpl role i).
Proof.
  unfold covers. split.
  - intros (rng & Hl & Hin). apply lookup_insert_Some in Hl as [[<- <-]|[? Hl]]; eauto.
  - intros [[-> Hin]|[Hne (rng & Hl & Hin)]].
    + exists v. by rewrite lookup_insert_eq.
    + exists rng. by rewrite lookup_insert_ne.
Qed.

Lemma range_ok_range n a b : 0 ≤ a → b ≤ n → range_ok n (Py.range a b).
Proof.
  intros Ha Hb. split; [apply NoDup_range|]. intros i Hi%elem_of_range. lia.
Qed.

Lemma ranges_ok_insert (tpl : gmap string (list Z)) n k v :
  range_ok n v →
  (∀ role rng, tpl !! role = Some rng → range_ok n rng) →
  ∀ role rng, <[k := v]> tpl !! role = Some rng → range_ok n rng.
Proof.
  intros Hv Ht role rng Hl.
  apply lookup_insert_Some in Hl as [[_ <-]|[_ Hl]]; eauto.
Qed.

Lemma ranges_ok_empty n :
  ∀ role rng, (∅ : gmap string (list Z)) !! role = Some rng → range_ok n rng.
Proof. intros role rng Hl. by rewrite lookup_empty in Hl. Qed.

(** C4 as stated fails: a master named "ps" takes the place of the
    parameter-server range, and index 0 is left in no range. *)
Lemma template_master_named_ps_gap :
  (0 ≤ 1 < 3) ∧
  build_cluster_template 1 3 (Some "ps") = <["worker" := [2]]> (<["ps" := [1]]> ∅) ∧
  ¬ partitions (build_cluster_template 1 3 (Some "ps")) 3.
Proof.
  split; [lia|]. split; [reflexivity|].
  intros [Hcover _]. destruct (Hcover 0 ltac:(lia)) as (role & Hc & _).
  change (build_cluster_template 1 3 (Some "ps"))
    with (<["worker" := [2]]> (<["ps" := [1]]> (∅ : gmap string (list Z)))) in Hc.
  rewrite !covers_insert, covers_empty in Hc. set_solver.
Qed.

(** The index of the goal lies in the range of [role] and of no other. *)
Ltac covered_by role :=
  exists role; (split; [|intros ?]);
  rewrite !covers_insert, covers_empty, !elem_of_range;
  naive_solver lia.

(** Every range of a table built by inserting ranges is well formed. *)
Ltac ranges_ok :=
  repeat (apply ranges_ok_insert; [apply range_ok_range; lia|]);
  apply ranges_ok_empty.

(** C4 (amended): for [0 <= num_ps < num_executors] and no master, or a
    master whose name is neither "ps" nor "worker", the role ranges built by
    [run] partition [[0, num_executors)]; "ps" is [[0, num_ps)]; with a
    master its range is the single index [num_ps] and "worker" is
    [[num_ps + 1, num_executors)], absent when empty; without one "worker"
    is [[num_ps, num_executors)]. *)
Theorem cluster_template_partitions num_ps n master :
  0 ≤ num_ps < n →
  master ≠ Some "ps" → master ≠ Some "worker" →
  let tpl := build_cluster_template num_ps n master in
  partitions tpl n
  ∧ tpl !! "ps" = Some (Py.range 0 num_ps)
  ∧ match master with
    | None => tpl !! "worker" = Some (Py.range num_ps n)
    | Some m =>
        tpl !! m = Some [num_ps]
        ∧ tpl !! "worker" =
            (if num_ps + 1 <? n then Some (Py.range (num_ps + 1) n) else None)
    end.
Proof.
  intros Hn Hps Hw tpl. subst tpl. unfold build_cluster_template.
  destruct master as [m|].
  - assert (m ≠ "ps") by congruence. assert (m ≠ "worker") by congruence.
    destruct (Z.ltb_spec (num_ps + 1) n) as [Hlt|Hge];
      (split; [|rewrite range_singleton; by simplify_map_eq]);
      (split; [|ranges_ok]); intros i Hi.
    + assert (i < num_ps ∨ i = num_ps ∨ num_ps < i) as [Hc|[Hc|Hc]] by lia;
        [covered_by "ps"|covered_by m|covered_by "worker"].
    + assert (i < num_ps ∨ i = num_ps) as [Hc|Hc] by lia;
        [covered_by "ps"|covered_by m].
  - split; [|by simplify_map_eq].
    split; [|ranges_ok]. intros i Hi.
    assert (i < num_ps ∨ num_ps ≤ i) as [Hc|Hc] by lia;
      [covered_by "ps"|covered_by "worker"].
Qed.

Lemma cluster_template_partitions_witness :
  0 ≤ 1 < 4
  ∧ Some "chief" ≠ Some "ps" ∧ Some "chief" ≠ Some "worker"
  ∧ partitions (build_cluster_template 1 4 (Some "chief")) 4
  ∧ build_cluster_template 1 4 (Some "chief") !! "chief" = Some [1].
Proof.
  assert (0 ≤ 1 < 4) as Hn by lia.
  assert (Some "chief" ≠ Some "ps") as Hps by discriminate.
  assert (Some "chief" ≠ Some "worker") as Hw by discriminate.
  split; [exact Hn|]. split; [exact Hps|]. split; [exact Hw|].
  destruct (cluster_template_partitions 1 4 (Some "chief") Hn Hps Hw)
    as (Hpart & _ & Hmaster & _).
  split; [exact Hpart|exact Hmaster].
Defined.

(** Scenario A: four nodes, one of them reserved. *)
Example template_four_nodes :
  build_cluster_template 1 4 None = <["worker" := [1; 2; 3]]> (<["ps" := [0]]> ∅).
Proof. reflexivity. Qed.

(** ** Feeding *)

Lemma append_epochs (dataRDD : RDD) (l : list Z) : ∀ rdds,
  fold_left (fun rdds (_ : Z) => rdds ++ [dataRDD]) l rdds
  = rdds ++ replicate (length l) dataRDD.
Proof.
  induction l as [|x l IH]; intros rdds; simpl.
  - by rewrite app_nil_r.
  - rewrite IH, <- app_assoc. done.
Qed.

Lemma rows_union (dataRDD : RDD) n :
  rows (sc_union (replicate n dataRDD)) = concat (replicate n (rows dataRDD)).
Proof.
  unfold rows, sc_union. induction n as [|n IH]; simpl; [done|].
  by rewrite concat_app, IH.
Qed.

Lemma length_concat_replicate {A} (l : list A) n :
  length (concat (replicate n l)) = (n * length l)%nat.
Proof. induction n as [|n IH]; simpl; [done|]. rewrite length_app, IH. done. Qed.

(** What a valid call on an RDD dispatches. *)
Lemma train_rdd self dataRDD num_epochs qname :
  input_mode self = InputMode.SPARK → qname ∈ queues self → 0 ≤ num_epochs →
  train self (Rdd dataRDD) num_epochs qname
  = inr [FeedJob (sc_union (replicate
                   (Z.to_nat (if num_epochs =? 0 then 10 else num_epochs)) dataRDD))
           qname].
Proof.
  intros Hmode Hq Hn. unfold train.
  rewrite Hmode, Z.eqb_refl, bool_decide_true by done. simpl.
  destruct (Z.leb_spec 0 num_epochs); [simpl|lia].
  rewrite append_epochs, range_length, Z.sub_0_r. done.
Qed.

(** C5: a valid call of [train] on an RDD with [num_epochs >= 1] runs one
    feed job over the union of [num_epochs] copies of the input, whose rows
    are the rows of the input repeated [num_epochs] times in order;
    [num_epochs = 0] does what [num_epochs = 10] does; a negative
    [num_epochs] fails the assertion. *)
Theorem train_epochs self dataRDD num_epochs qname :
  input_mode self = InputMode.SPARK →
  qname ∈ queues self →
  (1 ≤ num_epochs →
   ∃ unionRDD,
     train self (Rdd dataRDD) num_epochs qname = inr [FeedJob unionRDD qname]
     ∧ unionRDD = concat (replicate (Z.to_nat num_epochs) dataRDD)
     ∧ rows unionRDD = concat (replicate (Z.to_nat num_epochs) (rows dataRDD))
     ∧ Z.of_nat (length (rows unionRDD))
       = num_epochs * Z.of_nat (length (rows dataRDD)))
  ∧ train self (Rdd dataRDD) 0 qname = train self (Rdd dataRDD) 10 qname
  ∧ (∀ data, num_epochs < 0 → train self data num_epochs qname = inl Py.AssertionError).
Proof.
  intros Hmode Hq. split; [|split].
  - intros Hn. eexists. split; [|split; [|split]].
    + rewrite train_rdd by (done || lia).
      destruct (Z.eqb_spec num_epochs 0); [lia|]. reflexivity.
    + reflexivity.
    + apply rows_union.
    + change (concat (replicate (Z.to_nat num_epochs) dataRDD))
        with (sc_union (replicate (Z.to_nat num_epochs) dataRDD)).
      rewrite rows_union, length_concat_replicate. lia.
  - by rewrite !train_rdd.
  - intros data Hneg. unfold train.
    rewrite Hmode, Z.eqb_refl, bool_decide_true by done. simpl.
    destruct (Z.leb_spec 0 num_epochs); [lia|done].
Qed.

(** Scenario C: three rows and [num_epochs = 2] give six rows, two passes. *)
Lemma train_epochs_witness :
  input_mode (cluster4 InputMode.SPARK) = InputMode.SPARK
  ∧ "input" ∈ queues (cluster4 InputMode.SPARK)
  ∧ ∃ unionRDD,
      train (cluster4 InputMode.SPARK) (Rdd three_rows) 2 "input"
      = inr [FeedJob unionRDD "input"]
      ∧ rows unionRDD = ["r1"; "r2"; "r3"; "r1"; "r2"; "r3"].
Proof.
  assert ("input" ∈ queues (cluster4 InputMode.SPARK)) as Hq by (simpl; set_solver).
  split; [reflexivity|]. split; [exact Hq|].
  destruct (proj1 (train_epochs (cluster4 InputMode.SPARK) three_rows 2 "input"
                     eq_refl Hq) ltac:(lia)) as (u & Ht & _ & Hr & _).
  exists u. split; [exact Ht|exact Hr].
Defined.

(** C10: a valid call of [train] on a DStream gives rise to one feed job
    per arriving micro-batch, over that batch as it arrived and in order of
    arrival, whatever [num_epochs >= 0] is: nothing is repeated and 0 is not
    replaced by 10. *)
Theorem train_stream_ignores_epochs self arrivals num_epochs qname :
  input_mode self = InputMode.SPARK →
  qname ∈ queues self →
  0 ≤ num_epochs →
  train self (DStream arrivals) num_epochs qname
  = inr (map (fun rdd => FeedJob rdd qname) arrivals)
  ∧ train self (DStream arrivals) num_epochs qname
    = train self (DStream arrivals) 0 qname
  ∧ (∀ jobs, train self (DStream arrivals) num_epochs qname = inr jobs →
       length jobs = length arrivals
       ∧ ∀ i rdd, arrivals !! i = Some rdd → jobs !! i = Some (FeedJob rdd qname)).
Proof.
  intros Hmode Hq Hn.
  assert (∀ n, 0 ≤ n → train self (DStream arrivals) n qname
                      = inr (map (fun rdd => FeedJob rdd qname) arrivals)) as Hall.
  { intros n Hn'. unfold train.
    rewrite Hmode, Z.eqb_refl, bool_decide_true by done. simpl.
    destruct (Z.leb_spec 0 n); [done|lia]. }
  split; [by apply Hall|]. split; [by rewrite !Hall|].
  intros jobs. rewrite Hall by done. intros [= <-].
  split; [by rewrite length_map|].
  intros i rdd Hi. by rewrite list_lookup_fmap, Hi.
Qed.

Lemma train_stream_ignores_epochs_witness :
  input_mode (cluster4 InputMode.SPARK) = InputMode.SPARK
  ∧ "input" ∈ queues (cluster4 InputMode.SPARK)
  ∧ 0 ≤ 0
  ∧ train (cluster4 InputMode.SPARK) (DStream [three_rows; [["r4"]]]) 0 "input"
    = inr [FeedJob three_rows "input"; FeedJob [["r4"]] "input"].
Proof.
  assert ("input" ∈ queues (cluster4 InputMode.SPARK)) as Hq by (simpl; set_solver).
  split; [reflexivity|]. split; [exact Hq|]. split; [lia|].
  exact (proj1 (train_stream_ignores_epochs (cluster4 InputMode.SPARK)
                  [three_rows; [["r4"]]] 0 "input" eq_refl Hq ltac:(lia))).
Defined.

(** ** The status-polling loop *)

Lemma bind_unfold {A B} (m : M A) (f : A → M B) w :
  (m ≫= f) w =
  match m w with
  | Ret a w1 e1 =>
      match f a w1 with
      | Ret b w2 e2 => Ret b w2 (e1 ++ e2)
      | Exc x w2 e2 => Exc x w2 (e1 ++ e2)
      | Starved w2 e2 => Starved w2 (e1 ++ e2)
      end
  | Exc x w1 e1 => Exc x w1 e1
  | Starved w1 e1 => Starved w1 e1
  end.
Proof. reflexivity. Qed.

Lemma bind_Ret {A B} (m : M A) (f : A → M B) w b w' evs :
  (m ≫= f) w = Ret b w' evs ↔
  ∃ a w1 e1 e2, m w = Ret a w1 e1 ∧ f a w1 = Ret b w' e2 ∧ evs = e1 ++ e2.
Proof.
  rewrite bind_unfold. split.
  - destruct (m w) as [a w1 e1| |]; [|done..].
    destruct (f a w1) as [b' w2 e2| |] eqn:Hf; [|done..].
    intros [= -> -> <-]. by exists a, w1, e1, e2.
  - intros (a & w1 & e1 & e2 & -> & -> & ->). done.
Qed.

Lemma matching_nonneg nps stages : 0 ≤ matching nps stages.
Proof. unfold matching. lia. Qed.

Lemma total_matching_nonneg nps answers : 0 ≤ total_matching nps answers.
Proof.
  induction answers as [|p rest IH]; simpl; [lia|].
  pose proof (matching_nonneg nps (active_stages p)). lia.
Qed.

Lemma matching_cons nps stage stages :
  matching nps (stage :: stages)
  = (if stage_matches nps stage then 1 else 0) + matching nps stages.
Proof. unfold matching. simpl. destruct (stage_matches nps stage); simpl; lia. Qed.

(** What a scan that returns has computed. *)
Lemma scan_stages_Ret nps stages : ∀ count fin w r w' evs,
  scan_stages nps stages count fin w = Ret r w' evs →
  w' = w
  ∧ r.1 = count + matching nps stages
  ∧ r.2 = (if matching nps stages =? 0 then fin else 3 <=? r.1)
  ∧ evs = replicate (Z.to_nat (matching nps stages)) (Sleep 5).
Proof.
  induction stages as [|[id [si|]] rest IH]; intros count fin w r w' evs; simpl.
  - intros [= <- <- <-]. unfold matching. simpl. repeat split; simpl; lia.
  - rewrite matching_cons. unfold stage_matches. simpl.
    pose proof (matching_nonneg nps rest) as Hm.
    destruct (numActiveTasks si =? nps).
    + rewrite bind_Ret. intros (a & w1 & e1 & e2 & [= <- <- <-] & Hrec & ->).
      apply IH in Hrec as (-> & Hc & Hd & ->).
      split; [done|]. split; [lia|]. split.
      * rewrite Hd. destruct (Z.eqb_spec (matching nps rest) 0) as [Hz|Hz].
        -- rewrite Hc, Hz. simpl. f_equal. lia.
        -- destruct (Z.eqb_spec (1 + matching nps rest) 0); [lia|done].
      * replace (Z.to_nat (1 + matching nps rest))
          with (S (Z.to_nat (matching nps rest))) by lia. done.
    + intros Hrec. apply IH in Hrec as (-> & Hc & Hd & ->).
      split; [done|]. split; [lia|]. split; [done|]. f_equal.
  - done.
Qed.

(** A scan over known stages returns. *)
Lemma scan_stages_known nps stages : ∀ count fin w,
  Forall (fun stage => is_Some stage.2) stages →
  ∃ r evs, scan_stages nps stages count fin w = Ret r w evs.
Proof.
  induction stages as [|[id o] rest IH]; intros count fin w Hk; simpl.
  - by eexists _, _.
  - apply Forall_cons in Hk as [[si Hsi] Hk]. simpl in Hsi. subst o.
    destruct (numActiveTasks si =? nps).
    + destruct (IH (count + 1) (3 <=? count + 1) w Hk) as (r & evs & Hr).
      exists r, (Sleep 5 :: evs). rewrite bind_unfold. simpl. by rewrite Hr.
    + by apply IH.
Qed.

(** A scan never waits. *)
Lemma scan_stages_not_Starved nps stages : ∀ count fin w w' evs,
  scan_stages nps stages count fin w ≠ Starved w' evs.
Proof.
  induction stages as [|[id [si|]] rest IH]; intros count fin w w' evs; simpl; [done| |done].
  destruct (numActiveTasks si =? nps); [|apply IH].
  rewrite bind_unfold. simpl.
  destruct (scan_stages nps rest (count + 1) (3 <=? count + 1) w) eqn:Hrec; try done.
  by apply IH in Hrec.
Qed.

Lemma jobs_test (p : Poll) :
  (0 <? Z.of_nat (length (active_jobs p))) = bool_decide (active_jobs p ≠ []).
Proof. destruct (active_jobs p); [done|]. by rewrite bool_decide_true. Qed.

(** The loop returns only on an idle engine or on a count of three. *)
Lemma tf_wait_Ret nps answers : ∀ count w w' evs,
  count < 3 →
  tf_wait nps answers count w = Ret tt w' evs →
  polls w' = [] →
  (∃ p, last answers = Some p ∧ active_jobs p = [])
  ∨ 3 ≤ count + total_matching nps answers.
Proof.
  induction answers as [|p rest IH]; intros count w w' evs Hc; simpl; [done|].
  rewrite jobs_test. case_bool_decide as Hjobs.
  - rewrite bind_Ret. intros (r & w1 & e1 & e2 & Hscan & Hk & ->) Hp.
    apply scan_stages_Ret in Hscan as (-> & Hr1 & Hr2 & _).
    pose proof (total_matching_nonneg nps rest) as Ht.
    destruct r as [count' done']. simpl in *.
    destruct done'.
    + right. destruct (Z.eqb_spec (matching nps (active_stages p)) 0); [done|].
      symmetry in Hr2. apply Z.leb_le in Hr2. lia.
    + assert (count' < 3) as Hc'.
      { destruct (Z.eqb_spec (matching nps (active_stages p)) 0); [lia|].
        symmetry in Hr2. apply Z.leb_gt in Hr2. done. }
      destruct (IH count' w w' e2 Hc' Hk Hp) as [(q & Hl & Hq)|Hge].
      * left. exists q. split; [|done].
        destruct rest; [done|]. by rewrite last_cons, Hl.
      * right. lia.
  - intros Hret Hp. left. exists p.
    assert (active_jobs p = []) as Hj by (destruct (active_jobs p); [done|by destruct Hjobs]).
    split; [|done].
    unfold mbind, M_bind, bind, get_globals, put_globals, put_polls in Hret.
    simpl in Hret. injection Hret as <- <-. simpl in Hp. by subst rest.
Qed.

(** While the engine is busy and the count stays below three the loop goes on. *)
Lemma tf_wait_goes_on nps answers : ∀ count w,
  Forall busy answers →
  count + total_matching nps answers < 3 →
  ∃ w' evs, tf_wait nps answers count w = Starved w' evs ∧ globals w' = globals w.
Proof.
  induction answers as [|p rest IH]; intros count w Hb Hlt; simpl.
  - by eexists _, _.
  - apply Forall_cons in Hb as [[Hjobs Hknown] Hb].
    rewrite jobs_test, bool_decide_true by done.
    destruct (scan_stages_known nps (active_stages p) count false w Hknown)
      as (r & e1 & Hscan).
    pose proof Hscan as (_ & Hr1 & Hr2 & _)%scan_stages_Ret.
    pose proof (total_matching_nonneg nps rest) as Ht.
    pose proof (matching_nonneg nps (active_stages p)) as Hm.
    simpl in Hlt.
    assert (r.2 = false) as Hdone.
    { rewrite Hr2. destruct (_ =? 0); [done|]. apply Z.leb_gt. lia. }
    destruct (IH r.1 w Hb ltac:(lia)) as (w' & e2 & Hrec & Hg).
    exists w', (e1 ++ e2). rewrite bind_unfold, Hscan, Hdone, Hrec. done.
Qed.

(** On a busy engine the loop returns once three matches have been seen. *)
Lemma tf_wait_count_reached nps answers : ∀ count w,
  Forall busy answers →
  3 ≤ count + total_matching nps answers →
  count < 3 →
  ∃ w' evs, tf_wait nps answers count w = Ret tt w' evs ∧ globals w' = globals w.
Proof.
  induction answers as [|p rest IH]; intros count w Hb Hge Hc; simpl in *; [lia|].
  apply Forall_cons in Hb as [[Hjobs Hknown] Hb].
  rewrite jobs_test, bool_decide_true by done.
  destruct (scan_stages_known nps (active_stages p) count false w Hknown)
    as (r & e1 & Hscan).
  pose proof Hscan as (_ & Hr1 & Hr2 & _)%scan_stages_Ret.
  rewrite bind_unfold, Hscan.
  destruct r as [count' [|]]; simpl in *.
  - by eexists _, _.
  - assert (count' < 3) as Hc'.
    { destruct (Z.eqb_spec (matching nps (active_stages p)) 0); [lia|].
      symmetry in Hr2. by apply Z.leb_gt in Hr2. }
    destruct (IH count' w Hb ltac:(lia) Hc') as (w' & e2 & Hrec & Hg).
    rewrite Hrec. by eexists _, _.
Qed.

(** A poll without active jobs ends the loop at once and clears [running]. *)
Lemma tf_wait_idle nps before p rest : ∀ count w w1 e1,
  tf_wait nps before count w = Starved w1 e1 →
  active_jobs p = [] →
  ∃ w' evs, tf_wait nps (before ++ p :: rest) count w = Ret tt w' evs
            ∧ polls w' = rest ∧ running (globals w') = false.
Proof.
  induction before as [|q before IH]; intros count w w1 e1; simpl.
  - intros _ Hp. rewrite Hp. simpl. by eexists _, _.
  - rewrite jobs_test. case_bool_decide as Hjobs; [|done].
    rewrite !bind_unfold.
    destruct (scan_stages nps (active_stages q) count false w) as [r w2 e2| |] eqn:Hscan;
      [|done|by apply scan_stages_not_Starved in Hscan].
    destruct r as [count' [|]]; simpl; [done|].
    destruct (tf_wait nps before count' w2) as [| |w3 e3] eqn:Hrec; [done..|].
    intros _ Hp. destruct (IH _ _ _ _ Hrec Hp) as (w' & evs & -> & Hpolls & Hrun).
    by eexists _, _.
Qed.

(** C1 as stated fails: with one parameter server, the polls below match,
    miss, match, miss, match while a job stays active; the loop returns on
    the fifth, although no three consecutive polls matched. *)
Lemma completion_without_three_consecutive :
  completes_on 1 interleaved (world_of initial_globals interleaved)
  ∧ map (poll_matches 1) interleaved = [true; false; true; false; true]
  ∧ Forall (fun p => active_jobs p ≠ []) interleaved
  ∧ ¬ three_consecutive_rule.
Proof.
  assert (completes_on 1 interleaved (world_of initial_globals interleaved)) as Hc.
  { eexists _, _. split; [vm_compute; reflexivity|reflexivity]. }
  split; [exact Hc|]. split; [reflexivity|].
  split; [repeat constructor; done|].
  intros Hrule. destruct (Hrule _ _ _ Hc) as [(p & Hl & Hp)|(before & a & b & c & Heq & Ha & Hb & _)].
  - vm_compute in Hl. injection Hl as <-. done.
  - unfold interleaved in Heq.
    destruct before as [|p1 [|p2 [|p3 [|p4 [|p5 [|p6 before]]]]]]; simplify_eq/=.
Qed.

(** C1 (amended): the loop counts, over all polls and without ever
    resetting, the active stages seen with as many active tasks as there are
    parameter servers. It returns only on a poll without active jobs or once
    that count has reached 3; while every poll shows active jobs and the
    count is below 3 it keeps waiting, and on reaching 3 it returns; a poll
    without active jobs ends it at that poll and clears [running]. *)
Theorem tf_wait_completion nps answers w :
  (completes_on nps answers w →
     (∃ p, last answers = Some p ∧ active_jobs p = [])
     ∨ 3 ≤ total_matching nps answers)
  ∧ (Forall busy answers → total_matching nps answers < 3 →
     ∃ w' evs, tf_wait nps answers 0 w = Starved w' evs)
  ∧ (Forall busy answers → 3 ≤ total_matching nps answers →
     ∃ w' evs, tf_wait nps answers 0 w = Ret tt w' evs)
  ∧ (∀ before p rest w1 e1,
       answers = before ++ p :: rest →
       tf_wait nps before 0 w = Starved w1 e1 →
       active_jobs p = [] →
       ∃ w' evs, tf_wait nps answers 0 w = Ret tt w' evs
                 ∧ polls w' = rest ∧ running (globals w') = false).
Proof.
  split; [|split; [|split]].
  - intros (w' & evs & Hret & Hp).
    by apply (tf_wait_Ret nps answers 0 w w' evs).
  - intros Hb Hlt.
    destruct (tf_wait_goes_on nps answers 0 w Hb ltac:(lia)) as (w' & evs & H & _).
    eauto.
  - intros Hb Hge.
    destruct (tf_wait_count_reached nps answers 0 w Hb ltac:(lia) ltac:(lia))
      as (w' & evs & H & _).
    eauto.
  - intros before p rest w1 e1 -> Hs Hp. by eapply tf_wait_idle.
Qed.

(** Two matching polls and then an idle engine: the loop returns through
    the branch for no active jobs. *)
Lemma tf_wait_completion_witness :
  completes_on 1 two_then_idle (world_of initial_globals two_then_idle)
  ∧ ((∃ p, last two_then_idle = Some p ∧ active_jobs p = [])
     ∨ 3 ≤ total_matching 1 two_then_idle).
Proof.
  assert (completes_on 1 two_then_idle (world_of initial_globals two_then_idle)) as Hc.
  { eexists _, _. split; [vm_compute; reflexivity|reflexivity]. }
  split; [exact Hc|].
  exact (proj1 (tf_wait_completion 1 two_then_idle
                  (world_of initial_globals two_then_idle)) Hc).
Defined.

(** ** Shutdown *)

Lemma identify_filter (cluster_info : list Node) :
  identify cluster_info
  = (List.filter is_ps cluster_info, List.filter (fun n => negb (is_ps n)) cluster_info).
Proof.
  unfold identify.
  enough (∀ a b,
    fold_left
      (fun (acc : list Node * list Node) node =>
         if String.eqb (job_name node) "ps"
         then (acc.1 ++ [node], acc.2) else (acc.1, acc.2 ++ [node]))
      cluster_info (a, b)
    = (a ++ List.filter is_ps cluster_info,
       b ++ List.filter (fun n => negb (is_ps n)) cluster_info)) as H
    by apply (H [] []).
  induction cluster_info as [|n l IH]; intros a b; simpl.
  - by rewrite !app_nil_r.
  - change (String.eqb (job_name n) "ps") with (is_ps n).
    destruct (is_ps n); simpl; rewrite IH, <- app_assoc; done.
Qed.

Lemma streaming_wait_Ret answers : ∀ w w' evs,
  streaming_wait answers w = Ret tt w' evs →
  globals w' = globals w ∧ now w' = now w ∧ polls w' = polls w ∧ context_kept evs.
Proof.
  induction answers as [|a rest IH]; intros w w' evs; simpl; [done|].
  destruct a.
  - intros [= <- <-]. repeat split; constructor.
  - rewrite bind_Ret. intros (d1 & w1 & e1 & e2 & Hd1 & Hk & ->).
    unfold read_server_done in Hd1. destruct (server_done w) as [|x ds]; [done|].
    injection Hd1 as <- <- <-.
    apply bind_Ret in Hk as (u & w2 & e3 & e4 & Hstop & Hk & ->).
    apply bind_Ret in Hk as (d2 & w3 & e5 & e6 & Hd2 & Hk & ->).
    unfold read_server_done in Hd2.
    assert (w2 = set_server_done ds w ∧ context_kept e3) as [-> He3].
    { destruct x; injection Hstop as <- <- <-; split; try done; repeat constructor. }
    simpl in Hd2. destruct ds as [|y ds']; [done|]. injection Hd2 as <- <- <-.
    assert (globals w' = globals w ∧ now w' = now w ∧ polls w' = polls w ∧ context_kept e6)
      as (Hg & Hn & Hp & He6).
    { destruct y.
      - injection Hk as <- <-. repeat split; constructor.
      - apply IH in Hk as (Hg & Hn & Hp & He). done. }
    repeat split; try done. simpl. by apply Forall_app.
Qed.

Lemma tf_wait_frame nps answers : ∀ count w w' evs,
  tf_wait nps answers count w = Ret tt w' evs →
  (globals w' = globals w ∨ globals w' = set_running false (globals w))
  ∧ now w' = now w ∧ context_kept evs.
Proof.
  induction answers as [|p rest IH]; intros count w w' evs; simpl; [done|].
  destruct (0 <? Z.of_nat (length (active_jobs p))).
  - rewrite bind_Ret. intros (r & w1 & e1 & e2 & Hscan & Hk & ->).
    apply scan_stages_Ret in Hscan as (-> & _ & _ & ->).
    assert (context_kept (replicate (Z.to_nat (matching nps (active_stages p))) (Sleep 5)))
      as Hsl by (apply Forall_replicate; done).
    destruct r.2.
    + injection Hk as <- <-. rewrite app_nil_r. auto.
    + apply IH in Hk as (Hg & Hn & He). repeat split; try done. by apply Forall_app.
  - intros [= <- <-]. simpl. repeat split; [by right|constructor].
Qed.

(** The mode-specific wait leaves the globals alone, except that the
    status-polling loop may clear [running]; it never stops the context. *)
Lemma drain_frame self ssc w w1 e1 :
  drain self ssc w = Ret tt w1 e1 →
  (globals w1 = globals w ∨ globals w1 = set_running false (globals w))
  ∧ now w1 = now w ∧ context_kept e1.
Proof.
  unfold drain. destruct (identify (cluster_info self)) as [ps_list worker_list].
  destruct ssc.
  - unfold with_awaits. intros (Hg & Hn & _ & He)%streaming_wait_Ret. auto.
  - rewrite bind_Ret. intros (u & w2 & e2 & e3 & Hwait & [= <- <-] & ->).
    assert (context_kept [WorkerShutdownJob (Z.of_nat (length worker_list))])
      by (repeat constructor).
    destruct (input_mode self =? InputMode.TENSORFLOW).
    + destruct u. unfold with_polls in Hwait.
      apply tf_wait_frame in Hwait as (Hg & Hn & He).
      repeat split; try done. by apply Forall_app.
    + injection Hwait as <- <- <-. auto.
Qed.

(** Outside TENSORFLOW mode, and with a StreamingContext, the wait leaves
    [running] as it was. *)
Lemma drain_keeps_running self ssc w w1 e1 :
  drain self ssc w = Ret tt w1 e1 →
  ssc = true ∨ input_mode self ≠ InputMode.TENSORFLOW →
  globals w1 = globals w.
Proof.
  unfold drain. destruct (identify (cluster_info self)) as [ps_list worker_list].
  destruct ssc.
  - unfold with_awaits. by intros (Hg & _)%streaming_wait_Ret _.
  - rewrite bind_Ret. intros (u & w2 & e2 & e3 & Hwait & [= <- <-] & ->) [|Hmode]; [done|].
    apply Z.eqb_neq in Hmode. rewrite Hmode in Hwait. by injection Hwait as <- <- <-.
Qed.

(** The last wait returns once the engine reports no active jobs. *)
Lemma final_wait_returns answers : ∀ w,
  Exists (fun p => active_jobs p = []) answers →
  ∃ w' sleeps, final_wait answers w = Ret tt w' sleeps
               ∧ globals w' = globals w
               ∧ Forall (fun e => e = Sleep 5) sleeps.
Proof.
  induction answers as [|p rest IH]; intros w Hex; [by apply Exists_nil in Hex|].
  simpl. rewrite bind_unfold. simpl.
  destruct (active_jobs p) as [|j js] eqn:Hj; simpl.
  - eexists _, _. split; [done|]. split; [done|]. repeat constructor.
  - apply Exists_cons in Hex as [Hp|Hex]; [by rewrite Hj in Hp|].
    destruct (IH w Hex) as (w' & sleeps & -> & Hg & Hs).
    eexists _, _. split; [done|]. split; [done|]. by constructor.
Qed.

Lemma exception_handler_running now g doc :
  running g = true → experiment_json g = Some doc →
  exception_handler now g
  = (set_experiment_json (Some (failed_doc now doc)) g,
     [PutElastic (app_id g) (elastic_id g) (Some (failed_doc now doc))]).
Proof. intros Hr Hd. unfold exception_handler. by rewrite Hr, Hd. Qed.


Lemma exit_handler_running now g doc :
  running g = true → experiment_json g = Some doc →
  exit_handler now g
  = (set_experiment_json (Some (<["finished" := now]> (<["status" := "KILLED"]> doc))) g,
     [PutElastic (app_id g) (elastic_id g)
        (Some (<["finished" := now]> (<["status" := "KILLED"]> doc)))]).
Proof. intros Hr Hd. unfold exit_handler. by rewrite Hr, Hd. Qed.


(** Lines 194-196 when there is a document. *)
Lemma finalize_doc w doc :
  experiment_json (globals w) = Some doc →
  ∃ final_doc,
    finalize_experiment (Some doc) = inr final_doc
    ∧ finalize w
      = Ret tt (set_globals (set_experiment_json (Some final_doc) (globals w)) w)
          [PutElastic (app_id (globals w)) (elastic_id (globals w)) (Some final_doc)].
Proof.
  intros Hdoc. unfold finalize. rewrite bind_unfold. simpl. rewrite Hdoc.
  simpl. destruct (bool_decide (status_of doc = Some "FAILED")); eexists; split; done.
Qed.

Lemma context_kept_stop_ps (nodes : list Node) : context_kept (flat_map stop_ps nodes).
Proof.
  induction nodes as [|n l IH]; simpl; [constructor|].
  repeat (constructor; [done|]). exact IH.
Qed.





(** Scenario A: TENSORFLOW mode, one active task (the parameter server)
    seen on three polls, then an idle engine. *)
Example shutdown_three_matches :
  shutdown (cluster4 InputMode.TENSORFLOW) false
    (world_of running_globals [one_stage 1; one_stage 1; one_stage 1; idle])
  = Ret tt (world_of finished_globals [])
      ([Sleep 5; Sleep 5; Sleep 5; WorkerShutdownJob 3;
        PutElastic (Some "application_1") 1 (Some finished_doc)]
       ++ stop_ps (node "host0" "1" "ps" 0 5000) ++ [Sleep 5]).
Proof. vm_compute. reflexivity. Qed.

(** Three matching stages on one poll end the loop on that poll. *)
Example tf_wait_three_stages_one_poll :
  tf_wait 1
    [{| active_jobs := [0];
        active_stages := [(0, Some {| numActiveTasks := 1 |});
                          (1, Some {| numActiveTasks := 1 |});
                          (2, Some {| numActiveTasks := 1 |})] |}]
    0 (world_of running_globals [])
  = Ret tt (world_of running_globals []) [Sleep 5; Sleep 5; Sleep 5].
Proof. reflexivity. Qed.

(** A stage the engine no longer knows makes the loop raise. *)
Example tf_wait_unknown_stage :
  tf_wait 1 [{| active_jobs := [0]; active_stages := [(0, None)] |}] 0
    (world_of running_globals [])
  = Exc Py.AttributeError (world_of running_globals []) [].
Proof. reflexivity. Qed.

(** With a StreamingContext the loop ends once [server.done] is read true,
    after a graceful stop that keeps the SparkContext. *)
Example shutdown_streaming :
  drain (cluster4 InputMode.SPARK) true
    {| globals := running_globals; polls := [idle]; awaits := [false; false];
       server_done := [false; false; true; true]; now := "2018-01-01T00:00:00" |}
  = Ret tt
      {| globals := running_globals; polls := [idle]; awaits := [];
         server_done := []; now := "2018-01-01T00:00:00" |}
      [SscStop false true].
Proof. reflexivity. Qed.

(** ** The audit record *)

(** Neither handler ever writes RUNNING: the document they leave behind is
    the one they found, or one with status FAILED, resp. KILLED. *)
Lemma exception_handler_status now g doc' :
  experiment_json (exception_handler now g).1 = Some doc' →
  experiment_json g = Some doc' ∧ (exception_handler now g).2 = []
  ∨ status_of doc' = Some "FAILED"
    ∧ (exception_handler now g).2 = [PutElastic (app_id g) (elastic_id g) (Some doc')].
Proof.
  unfold exception_handler.
  destruct (running g), (experiment_json g) as [doc|] eqn:Hd; simpl; rewrite ?Hd;
    try (intros H; left; split; [congruence|done]).
  intros [= <-]. right. split; [|done].
  unfold status_of. by rewrite lookup_insert_ne, lookup_insert_eq.
Qed.

Lemma exit_handler_status now g doc' :
  experiment_json (exit_handler now g).1 = Some doc' →
  experiment_json g = Some doc' ∧ (exit_handler now g).2 = []
  ∨ status_of doc' = Some "KILLED"
    ∧ (exit_handler now g).2 = [PutElastic (app_id g) (elastic_id g) (Some doc')].
Proof.
  unfold exit_handler.
  destruct (running g), (experiment_json g) as [doc|] eqn:Hd; simpl; rewrite ?Hd;
    try (intros H; left; split; [congruence|done]).
  intros [= <-]. right. split; [|done].
  unfold status_of. by rewrite lookup_insert_ne, lookup_insert_eq.
Qed.

(** A terminal status is not turned back into RUNNING by a handler. *)
Lemma handlers_keep_terminal now g doc :
  experiment_json g = Some doc →
  status_of doc ≠ Some "RUNNING" →
  (∀ doc', experiment_json (exception_handler now g).1 = Some doc' →
           status_of doc' ≠ Some "RUNNING")
  ∧ (∀ doc', experiment_json (exit_handler now g).1 = Some doc' →
             status_of doc' ≠ Some "RUNNING").
Proof.
  intros Hd Hs. split; intros doc' H.
  - apply exception_handler_status in H as [[H _]|[H _]]; [congruence|by rewrite H].
  - apply exit_handler_status in H as [[H _]|[H _]]; [congruence|by rewrite H].
Qed.

(** With [running] cleared both handlers are silent. *)
Lemma handlers_silent_when_stopped now g :
  running g = false →
  exception_handler now g = (g, []) ∧ exit_handler now g = (g, []).
Proof. intros Hr. unfold exception_handler, exit_handler. by rewrite Hr. Qed.

Lemma final_wait_frame answers : ∀ w w' evs,
  final_wait answers w = Ret tt w' evs → globals w' = globals w.
Proof.
  induction answers as [|p rest IH]; intros w w' evs; simpl; [done|].
  rewrite bind_unfold. simpl.
  destruct (Z.of_nat (length (active_jobs p)) =? 0).
  - by intros [= <- <-].
  - destruct (final_wait rest w) as [[] w5 e9| |] eqn:Hrec; [|done..].
    intros [= <- <-]. by apply IH in Hrec.
Qed.

(** A [shutdown] that returns outside TENSORFLOW mode, or with a
    StreamingContext, leaves [running] as it found it. *)
Lemma shutdown_keeps_running self ssc w w' evs :
  shutdown self ssc w = Ret tt w' evs →
  ssc = true ∨ input_mode self ≠ InputMode.TENSORFLOW →
  running (globals w') = running (globals w)
  ∧ is_Some (experiment_json (globals w')).
Proof.
  unfold shutdown. rewrite identify_filter.
  rewrite bind_Ret. intros (u1 & w1 & e1 & e2 & Hdrain & Hk & ->) Hmode.
  destruct u1. pose proof (drain_keeps_running _ _ _ _ _ Hdrain Hmode) as Hg.
  apply bind_Ret in Hk as (u2 & w2 & e3 & e4 & Herr & Hk & ->).
  apply bind_Ret in Hk as (u3 & w3 & e5 & e6 & Hfin & Hk & ->).
  apply bind_Ret in Hk as (u4 & w4 & e7 & e8 & [= <- <- <-] & Hk & ->).
  unfold with_polls in Hk.
  assert (running (globals w2) = running (globals w1)) as Hr2.
  { unfold on_error in Herr. rewrite bind_unfold in Herr. simpl in Herr.
    destruct (bool_decide ("error" ∈ dom (tf_status (globals w1)))).
    - rewrite bind_unfold in Herr. simpl in Herr. injection Herr as <- <- <-. simpl.
      unfold exception_handler.
      by destruct (running (globals w1)) eqn:Hr, (experiment_json (globals w1)).
    - by injection Herr as <- <- <-. }
  assert (running (globals w3) = running (globals w2)
          ∧ is_Some (experiment_json (globals w3))) as [Hr3 Hj3].
  { unfold finalize in Hfin. rewrite bind_unfold in Hfin. simpl in Hfin.
    destruct (finalize_experiment (experiment_json (globals w2))) as [e|d]; [done|].
    rewrite bind_unfold in Hfin. simpl in Hfin. injection Hfin as <- <- <-.
    simpl. eauto. }
  apply final_wait_frame in Hk. split; [congruence|by rewrite Hk].
Qed.

(** C6 at the failing input: a SPARK-mode [shutdown] of the run started by
    [run] returns with the FINISHED record written and [running] still set;
    the exit handler that runs afterwards writes a KILLED record over it. *)
Theorem exit_handler_writes_after_shutdown :
  shutdown (cluster4 InputMode.SPARK) false (world_of running_globals [idle])
  = Ret tt (world_of finished_globals [])
      ([WorkerShutdownJob 3; PutElastic (Some "application_1") 1 (Some finished_doc)]
       ++ stop_ps (node "host0" "1" "ps" 0 5000) ++ [Sleep 5])
  ∧ status_of finished_doc = Some "FINISHED"
  ∧ running finished_globals = true
  ∧ (exit_handler "2018-01-01T00:00:09" finished_globals).2
    = [PutElastic (Some "application_1") 1
         (Some (<["finished" := "2018-01-01T00:00:09"]>
                  (<["status" := "KILLED"]> finished_doc)))].
Proof.
  split; [vm_compute; reflexivity|].
  split; [reflexivity|]. split; [reflexivity|].
  by rewrite (exit_handler_running _ _ finished_doc).
Qed.

(** ** [run] *)

Lemma string_app_assoc (a b c : string) : (a +:+ b) +:+ c = a +:+ b +:+ c.
Proof.
  induction a as [|x a IH]; [done|].
  change (String x ((a +:+ b) +:+ c) = String x (a +:+ b +:+ c)). by rewrite IH.
Qed.

(** The text of the exception names the host and the executor id. *)
Lemma duplicate_message_names h x :
  ∃ rest,
    duplicate_message h x
    = "Duplicate cluster node id detected (host=" +:+ h
        +:+ ", executor_id=" +:+ x +:+ rest.
Proof. eexists. unfold duplicate_message. rewrite !string_app_assoc. reflexivity. Qed.

(** The scan ends without raising exactly when the ids are pairwise
    distinct and none is in the set it starts from. *)
Lemma check_duplicates_None (cluster_info : list Node) : ∀ tb_nodes,
  check_duplicates cluster_info tb_nodes = None
  ↔ NoDup (node_id <$> cluster_info)
    ∧ ∀ n, n ∈ cluster_info → node_id n ∉ tb_nodes.
Proof.
  induction cluster_info as [|n l IH]; intros tb_nodes; simpl.
  - split; [|done]. intros _. split; [constructor|]. intros n Hn. by apply elem_of_nil in Hn.
  - case_bool_decide as Hin.
    + split; [done|]. intros [_ Hfresh]. destruct (Hfresh n); [left|done].
    + rewrite IH, NoDup_cons. split.
      * intros [Hnd Hfresh]. split; [split; [|done]|].
        -- intros (m & Heq & Hm)%list_elem_of_fmap.
           specialize (Hfresh m Hm). rewrite <- Heq in Hfresh. set_solver.
        -- intros m [->|Hm]%elem_of_cons; [done|].
           specialize (Hfresh m Hm). set_solver.
      * intros [[Hn Hnd] Hfresh]. split; [done|].
        intros m Hm. apply not_elem_of_union. split.
        -- intros Heq%elem_of_singleton. apply Hn, list_elem_of_fmap. eauto.
        -- apply Hfresh. by right.
Qed.

(** When the scan raises, it raises for the first node whose id was seen
    before, with the text that names that id. *)
Lemma check_duplicates_Some (cluster_info : list Node) : ∀ tb_nodes e,
  check_duplicates cluster_info tb_nodes = Some e →
  ∃ before n after,
    cluster_info = before ++ n :: after
    ∧ e = Py.Exception (duplicate_message (host n) (executor_id n))
    ∧ (node_id n ∈ tb_nodes ∨ node_id n ∈ node_id <$> before)
    ∧ check_duplicates before tb_nodes = None.
Proof.
  induction cluster_info as [|n l IH]; intros tb_nodes e; simpl; [done|].
  case_bool_decide as Hin.
  - intros [= <-]. exists [], n, l. auto.
  - intros (before & m & after & -> & He & Hseen & Hbefore)%IH.
    exists (n :: before), m, after. split; [done|]. split; [done|]. split.
    + simpl. rewrite elem_of_cons.
      destruct Hseen as [[Heq%elem_of_singleton|?]%elem_of_union|?]; auto.
    + simpl. by rewrite bool_decide_false.
Qed.

(** What [run] does once it has the registry. *)
Lemma run_with_registry args env g reg :
  completes_registry args env reg →
  ∃ meta g' evs,
    run args env g
    = (match check_duplicates reg ∅ with
       | Some e => Raised e
       | None => Returned {| cluster_info := reg; cluster_meta := meta;
                             input_mode := arg_input_mode args;
                             queues := arg_queues args |}
       end, g', evs).
Proof.
  intros ((Hlt & Hdrv & Hlog & [gpus Hgpu]) & Hreg). unfold run.
  destruct (Z.ltb_spec (num_ps args) (num_executors args)); [simpl|lia].
  rewrite Hdrv, Hlog, Hgpu, Hreg.
  destruct (check_duplicates reg ∅).
  - exists (Build_ClusterMeta 0 ∅ 0 "" "" ("", 0)). eexists _, _. reflexivity.
  - eexists _, _, _. reflexivity.
Qed.

(** C3: once the registry is complete, [run] returns a handle holding it
    when the pairs (host, executor_id) are pairwise distinct; when a pair
    occurs twice it raises, returning no handle, an exception whose text
    names the host and executor id of a node whose pair occurred earlier in
    the registry. *)
Theorem run_duplicate_detection args env g reg :
  completes_registry args env reg →
  (NoDup (node_id <$> reg) →
   ∃ cluster g' evs,
     run args env g = (Returned cluster, g', evs) ∧ cluster_info cluster = reg)
  ∧ (¬ NoDup (node_id <$> reg) →
     ∃ i j first again g' evs,
       run args env g
       = (Raised (Py.Exception (duplicate_message (host again) (executor_id again))),
          g', evs)
       ∧ (i < j)%nat ∧ reg !! i = Some first ∧ reg !! j = Some again
       ∧ node_id first = node_id again
       ∧ ∃ rest,
           duplicate_message (host again) (executor_id again)
           = "Duplicate cluster node id detected (host=" +:+ host again
               +:+ ", executor_id=" +:+ executor_id again +:+ rest).
Proof.
  intros Hreg. destruct (run_with_registry args env g reg Hreg) as (meta & g' & evs & Hrun).
  split.
  - intros Hnd. rewrite Hrun.
    assert (check_duplicates reg ∅ = None) as ->.
    { apply check_duplicates_None. split; [done|]. intros n _. apply not_elem_of_empty. }
    by eexists _, _, _.
  - intros Hdup. destruct (check_duplicates reg ∅) as [e|] eqn:Hcheck.
    + apply check_duplicates_Some in Hcheck
        as (before & again & after & -> & -> & [Hin|Hin] & _);
        [by apply not_elem_of_empty in Hin|].
      apply list_elem_of_fmap in Hin as (first & Hid & Hfirst).
      apply list_elem_of_lookup in Hfirst as [i Hi].
      exists i, (length before), first, again, g', evs.
      split; [done|]. split; [by apply lookup_lt_Some in Hi|].
      split; [by apply lookup_app_l_Some|].
      split; [by rewrite list_lookup_middle|].
      split; [done|]. apply duplicate_message_names.
    + apply check_duplicates_None in Hcheck as [Hnd _]. done.
Qed.

Lemma env4_completes mode : completes_registry (args4 mode) env4 four_nodes.
Proof. repeat split; by eauto. Qed.

Lemma run_duplicate_detection_witness :
  completes_registry (args4 InputMode.TENSORFLOW) env4 four_nodes
  ∧ NoDup (node_id <$> four_nodes)
  ∧ ∃ cluster g' evs,
      run (args4 InputMode.TENSORFLOW) env4 initial_globals = (Returned cluster, g', evs)
      ∧ cluster_info cluster = four_nodes.
Proof.
  assert (NoDup (node_id <$> four_nodes)) as Hnd.
  { apply (bool_decide_unpack _). vm_compute. exact I. }
  split; [apply env4_completes|]. split; [exact Hnd|].
  exact (proj1 (run_duplicate_detection (args4 InputMode.TENSORFLOW) env4
                  initial_globals four_nodes (env4_completes _)) Hnd).
Defined.

(** The registry with a repeated executor is refused, and the text names it. *)
Example run_refuses_duplicate :
  (run (args4 InputMode.TENSORFLOW) env_duplicated initial_globals).1.1
  = Raised (Py.Exception (duplicate_message "host1" "2")).
Proof. vm_compute. reflexivity. Qed.

(** C9 as stated fails: only three of the four nodes ever report their
    capability signal and register. Fewer than four nodes register within
    the timeout, yet [run] raises no timeout error: it is still blocked in
    the capability check, which has no timeout. *)
Lemma run_blocks_without_timeout :
  Z.of_nat (length (registered_within (reservation_timeout (args4 InputMode.TENSORFLOW))
                      (registrations env_three_report)))
  < num_executors (args4 InputMode.TENSORFLOW)
  ∧ run (args4 InputMode.TENSORFLOW) env_three_report initial_globals
    = (Blocked, running_globals,
       [ServerStart 4;
        PutElastic (Some "application_1") 1 (Some (populate_experiment "mnist"));
        ThreadStart])
  ∧ ∀ g' evs,
      run (args4 InputMode.TENSORFLOW) env_three_report initial_globals
      ≠ (Raised reservation_timeout_error, g', evs).
Proof.
  split; [vm_compute; reflexivity|].
  assert (run (args4 InputMode.TENSORFLOW) env_three_report initial_globals
          = (Blocked, running_globals,
             [ServerStart 4;
              PutElastic (Some "application_1") 1 (Some (populate_experiment "mnist"));
              ThreadStart])) as Hrun by reflexivity.
  split; [exact Hrun|]. intros g' evs. rewrite Hrun. discriminate.
Qed.

(** C9 (amended, spec-modelled registration): a handle returned by [run]
    holds the registry of exactly [num_executors] records, all received
    within the timeout; when fewer than [num_executors] nodes register
    within [reservation_timeout] seconds no handle is returned, and a call
    that has passed the checks of [run] and whose capability check has
    completed raises the timeout error. *)
Theorem run_waits_for_registration args env g :
  (∀ cluster g' evs,
     run args env g = (Returned cluster, g', evs) →
     cluster_info cluster
     = take (Z.to_nat (num_executors args))
         (registered_within (reservation_timeout args) (registrations env))
     ∧ length (cluster_info cluster) = Z.to_nat (num_executors args)
     ∧ num_executors args
       ≤ Z.of_nat (length (registered_within (reservation_timeout args)
                             (registrations env))))
  ∧ (Z.of_nat (length (registered_within (reservation_timeout args) (registrations env)))
     < num_executors args →
     (∀ cluster g' evs, run args env g ≠ (Returned cluster, g', evs))
     ∧ (reaches_registration args env →
        ∃ g' evs, run args env g = (Raised reservation_timeout_error, g', evs))).
Proof.
  assert (∀ cluster g' evs,
     run args env g = (Returned cluster, g', evs) →
     cluster_info cluster
     = take (Z.to_nat (num_executors args))
         (registered_within (reservation_timeout args) (registrations env))
     ∧ length (cluster_info cluster) = Z.to_nat (num_executors args)
     ∧ num_executors args
       ≤ Z.of_nat (length (registered_within (reservation_timeout args)
                             (registrations env)))) as Hret.
  { intros cluster g' evs. unfold run.
    destruct (num_ps args <? num_executors args) eqn:Hlt; [simpl|done].
    apply Z.ltb_lt in Hlt.
    destruct (driver_ps_nodes args); [done|].
    destruct (Py.truthy (log_dir args)); [done|].
    destruct (await_gpu_check _ _); [|done].
    unfold await_reservations.
    destruct (Z.ltb_spec
                (Z.of_nat (length (registered_within (reservation_timeout args)
                                     (registrations env))))
                (num_executors args)) as [|Hge]; [done|].
    destruct (check_duplicates _ _); [done|].
    intros [= <- _ _]. simpl. split; [done|]. split; [|done].
    rewrite length_take. lia. }
  split; [exact Hret|].
  intros Hfew. split.
  - intros cluster g' evs Hrun. apply Hret in Hrun as (_ & _ & Hge). lia.
  - intros (Hlt & Hdrv & Hlog & [gpus Hgpu]). unfold run.
    destruct (Z.ltb_spec (num_ps args) (num_executors args)); [simpl|lia].
    rewrite Hdrv, Hlog, Hgpu. unfold await_reservations.
    destruct (Z.ltb_spec
                (Z.of_nat (length (registered_within (reservation_timeout args)
                                     (registrations env))))
                (num_executors args)); [|lia].
    by eexists _, _.
Qed.

Lemma run_waits_for_registration_witness :
  Z.of_nat (length (registered_within 600 (registrations env_late))) < 4
  ∧ reaches_registration (args4 InputMode.TENSORFLOW) env_late
  ∧ ∃ g' evs,
      run (args4 InputMode.TENSORFLOW) env_late initial_globals
      = (Raised reservation_timeout_error, g', evs).
Proof.
  assert (Z.of_nat (length (registered_within 600 (registrations env_late))) < 4) as Hfew
    by (vm_compute; reflexivity).
  assert (reaches_registration (args4 InputMode.TENSORFLOW) env_late) as Hreach
    by (repeat split; by eauto).
  split; [exact Hfew|]. split; [exact Hreach|].
  exact (proj2 (proj2 (run_waits_for_registration (args4 InputMode.TENSORFLOW) env_late
                         initial_globals) Hfew) Hreach).
Defined.

(** C8 as stated fails: the counters are incremented and [running] is set
    before the role counts are checked. *)
Lemma run_counts_before_check :
  num_executors bad_args ≤ num_ps bad_args
  ∧ run bad_args env4 initial_globals
    = (Raised Py.AssertionError,
       {| tf_status := ∅; elastic_id := 1; experiment_json := None;
          running := true; app_id := None; run_id := 1 |}, [])
  ∧ (run bad_args env4 initial_globals).1.2 ≠ initial_globals.
Proof. split; [done|]. split; [reflexivity|]. simpl. by intros [=]. Qed.

(** C8 (amended): with [num_ps >= num_executors], [run] fails its assertion
    before it starts the reservation server or the background thread, before
    it writes to the audit sink and before it touches the experiment record,
    the application id or [tf_status]; by then it has incremented
    [elastic_id] and [run_id] and set [running]. *)
Theorem run_rejects_role_counts args env g :
  num_executors args ≤ num_ps args →
  ∃ g',
    run args env g = (Raised Py.AssertionError, g', [])
    ∧ experiment_json g' = experiment_json g
    ∧ app_id g' = app_id g
    ∧ tf_status g' = tf_status g
    ∧ elastic_id g' = elastic_id g + 1
    ∧ run_id g' = run_id g + 1
    ∧ running g' = true.
Proof.
  intros Hge. exists (bump_counters g). unfold run.
  destruct (Z.ltb_spec (num_ps args) (num_executors args)); [lia|]. done.
Qed.

Lemma run_rejects_role_counts_witness :
  num_executors bad_args ≤ num_ps bad_args
  ∧ ∃ g', run bad_args env4 initial_globals = (Raised Py.AssertionError, g', [])
          ∧ experiment_json g' = None.
Proof.
  assert (num_executors bad_args ≤ num_ps bad_args) as Hge by done.
  split; [exact Hge|].
  destruct (run_rejects_role_counts bad_args env4 initial_globals Hge)
    as (g' & Hrun & Hj & _).
  exists g'. split; [exact Hrun|exact Hj].
Defined.

(** The state in which [run] starts the background thread. *)
Lemma run_starts_thread_running args env g res g' evs :
  run args env g = (res, g', evs) →
  ThreadStart ∈ evs →
  running g' = true
  ∧ experiment_json g' = Some (populate_experiment (name args))
  ∧ [ServerStart (num_executors args);
     PutElastic (Some (applicationId env)) (elastic_id g + 1)
       (Some (populate_experiment (name args)));
     ThreadStart] = evs.
Proof.
  unfold run.
  destruct (num_ps args <? num_executors args); simpl;
    [|intros [= <- <- <-] H; by apply elem_of_nil in H].
  destruct (driver_ps_nodes args); [intros [= <- <- <-] H; by apply elem_of_nil in H|].
  destruct (Py.truthy (log_dir args)); [intros [= <- <- <-] H; by apply elem_of_nil in H|].
  destruct (await_gpu_check _ _); [|by intros [= <- <- <-]].
  destruct (await_reservations _ _ _); [by intros [= <- <- <-]|].
  destruct (check_duplicates _ _); by intros [= <- <- <-].
Qed.

(** C7: when the bootstrap dispatch raises in the background thread, no
    exception leaves the thread, [tf_status] holds the text of the
    exception under "error", and the failure handler has run on the globals
    with the error recorded; in the state in which [run] starts the thread
    ([running] set, a document present) that is the FAILED audit write. *)
Theorem start_records_failure args e now g :
  let recorded := set_tf_status (<["error" := str e]> (tf_status g)) g in
  (_start args (Some e) now g).1.1 = None
  ∧ tf_status (_start args (Some e) now g).1.2 !! "error" = Some (str e)
  ∧ (_start args (Some e) now g).1.2 = (exception_handler now recorded).1
  ∧ (_start args (Some e) now g).2
    = NodeJob (num_executors args) (arg_input_mode args =? InputMode.SPARK)
        :: (exception_handler now recorded).2
  ∧ (∀ doc, running g = true → experiment_json g = Some doc →
       (_start args (Some e) now g).2
       = [NodeJob (num_executors args) (arg_input_mode args =? InputMode.SPARK);
          PutElastic (app_id g) (elastic_id g) (Some (failed_doc now doc))]).
Proof.
  intros recorded. unfold _start. simpl. fold recorded.
  split; [done|]. split; [|split; [done|split; [done|]]].
  - unfold exception_handler.
    destruct (running recorded), (experiment_json recorded); simpl;
      apply lookup_insert_eq.
  - intros doc Hr Hd. by rewrite (exception_handler_running _ _ doc).
Qed.

Lemma start_records_failure_witness :
  running running_globals = true
  ∧ experiment_json running_globals = Some (populate_experiment "mnist")
  ∧ (_start (args4 InputMode.TENSORFLOW) (Some (Py.Exception "boom"))
       "2018-01-01T00:00:03" running_globals).2
    = [NodeJob 4 false;
       PutElastic (Some "application_1") 1
         (Some (failed_doc "2018-01-01T00:00:03" (populate_experiment "mnist")))].
Proof.
  split; [reflexivity|]. split; [reflexivity|].
  exact (proj2 (proj2 (proj2 (proj2
           (start_records_failure (args4 InputMode.TENSORFLOW) (Py.Exception "boom")
              "2018-01-01T00:00:03" running_globals))))
           (populate_experiment "mnist") eq_refl eq_refl).
Defined.

(** The scenarios above start from the globals [run] leaves behind. *)
Example run_scenario mode :
  run (args4 mode) env4 initial_globals
  = (Returned (cluster4 mode), running_globals,
     [ServerStart 4;
      PutElastic (Some "application_1") 1 (Some (populate_experiment "mnist"));
      ThreadStart]).
Proof. reflexivity. Qed.

(** [error_globals] is what a second [run] leaves behind after the thread
    of the first one has failed: [tf_status] is never cleared. *)
Example error_globals_reachable :
  (run (args4 InputMode.TENSORFLOW) env4
     (_start (args4 InputMode.TENSORFLOW) (Some (Py.Exception "boom"))
        "2018-01-01T00:00:03" running_globals).1.2).1.2
  = error_globals.
Proof. reflexivity. Qed.

(** * Further properties *)

(** ** What the waits and [shutdown] respect *)

Lemma respects_ret {A} (R : World → World → Prop) Q (a : A) :
  Reflexive R → respects R Q (mret a).
Proof. intros HR w. split; [apply HR|constructor]. Qed.

Lemma respects_bind {A B} (R : World → World → Prop) Q (m : M A) (f : A → M B) :
  Transitive R →
  respects R Q m → (∀ a, respects R Q (f a)) → respects R Q (m ≫= f).
Proof.
  intros HR Hm Hf w. rewrite bind_unfold.
  destruct (Hm w) as [Hw He]. destruct (m w) as [a w1 e1| |]; simpl in *; [|done..].
  destruct (Hf a w1) as [Hw' He'].
  destruct (f a w1) as [b w2 e2| |]; simpl in *;
    (split; [by etrans|by apply Forall_app]).
Qed.

Lemma respects_weaken {A} (R R' : World → World → Prop) (Q Q' : Event → Prop) (m : M A) :
  (∀ w w', R w w' → R' w w') → (∀ e, Q e → Q' e) →
  respects R Q m → respects R' Q' m.
Proof.
  intros HR HQ Hm w. destruct (Hm w) as [Hw He]. split; [by apply HR|].
  eapply Forall_impl; [exact He|exact HQ].
Qed.

#[local] Instance running_cleared_refl : Reflexive running_cleared.
Proof. intros w. split; [by left|done]. Qed.

#[local] Instance running_cleared_trans : Transitive running_cleared.
Proof.
  intros w1 w2 w3 [H12 Hn12] [H23 Hn23]. split; [|congruence].
  destruct H12 as [H12|H12], H23 as [H23|H23]; rewrite H23, H12; auto.
Qed.

#[local] Instance keeps_identity_refl : Reflexive keeps_identity.
Proof. by intros w. Qed.

#[local] Instance keeps_identity_trans : Transitive keeps_identity.
Proof.
  intros w1 w2 w3 (? & ? & ? & ? & ?) (? & ? & ? & ? & ?).
  repeat split; try congruence. auto.
Qed.

#[local] Instance streaming_only_refl : Reflexive streaming_only.
Proof. by intros w. Qed.

#[local] Instance streaming_only_trans : Transitive streaming_only.
Proof. intros w1 w2 w3 (? & ? & ?) (? & ? & ?). repeat split; congruence. Qed.

Lemma running_cleared_identity w w' : running_cleared w w' → keeps_identity w w'.
Proof.
  intros [[Hg|Hg] _]; unfold keeps_identity; rewrite Hg; repeat split; simpl; auto; done.
Qed.

Lemma streaming_only_cleared w w' : streaming_only w w' → running_cleared w w'.
Proof. intros (Hg & _ & Hn). split; [by left|done]. Qed.

Lemma streaming_wait_respects answers :
  respects streaming_only (fun e => e = SscStop false true) (streaming_wait answers).
Proof.
  induction answers as [|a rest IH]; simpl.
  - intros w. split; [done|constructor].
  - destruct a; [intros w; split; [done|constructor]|].
    apply respects_bind; [apply _| |intros d1].
    { intros w. unfold read_server_done. destruct (server_done w); simpl;
        (split; [done|constructor]). }
    apply respects_bind; [apply _| |intros _].
    { destruct d1; intros w; simpl; (split; [done|]); repeat constructor. }
    apply respects_bind; [apply _| |intros d2].
    { intros w. unfold read_server_done. destruct (server_done w); simpl;
        (split; [done|constructor]). }
    destruct d2; [intros w; split; [done|constructor]|exact IH].
Qed.

Lemma scan_stages_respects nps stages : ∀ count fin,
  respects eq (fun e => e = Sleep 5) (scan_stages nps stages count fin).
Proof.
  induction stages as [|[id [si|]] rest IH]; intros count fin; simpl.
  - intros w. split; [done|constructor].
  - destruct (numActiveTasks si =? nps); [|apply IH].
    apply respects_bind; [apply _| |intros _; apply IH].
    intros w. split; [done|]. by repeat constructor.
  - intros w. split; [done|constructor].
Qed.

Lemma tf_wait_respects nps answers : ∀ count,
  respects running_cleared (fun e => e = Sleep 5) (tf_wait nps answers count).
Proof.
  induction answers as [|p rest IH]; intros count; simpl.
  - intros w. split; [split; [by left|done]|constructor].
  - destruct (0 <? Z.of_nat (length (active_jobs p))).
    + apply respects_bind; [apply _| |intros r].
      { eapply respects_weaken; [| |apply scan_stages_respects]; [by intros w w' <-|done]. }
      destruct r.2; [intros w; split; [split; [by left|done]|constructor]|apply IH].
    + intros w. simpl. split; [|constructor]. split; [by right|done].
Qed.

Lemma final_wait_respects answers :
  respects globals_kept (fun e => e = Sleep 5) (final_wait answers).
Proof.
  induction answers as [|p rest IH]; simpl.
  - intros w. split; [done|]. by repeat constructor.
  - intros w. rewrite bind_unfold. simpl.
    destruct (Z.of_nat (length (active_jobs p)) =? 0); simpl.
    + split; [done|]. by repeat constructor.
    + destruct (IH w) as [Hw He].
      destruct (final_wait rest w); simpl in *; (split; [done|by constructor]).
Qed.

Lemma drain_respects self ssc : respects running_cleared wait_event (drain self ssc).
Proof.
  unfold drain. destruct (identify (cluster_info self)) as [ps_list worker_list].
  destruct ssc.
  - intros w. unfold with_awaits.
    destruct (streaming_wait_respects (awaits w) w) as [Hw He].
    split; [by apply streaming_only_cleared|].
    eapply Forall_impl; [exact He|]. intros e ->. right. by left.
  - apply respects_bind; [apply _| |intros _].
    + destruct (input_mode self =? InputMode.TENSORFLOW).
      * intros w. unfold with_polls.
        destruct (tf_wait_respects (Z.of_nat (length ps_list)) (polls w) 0 w) as [Hw He].
        split; [done|]. eapply Forall_impl; [exact He|]. intros e ->. by left.
      * intros w. split; [reflexivity|constructor].
    + intros w. split; [reflexivity|].
      constructor; [right; right; by eexists|constructor].
Qed.

Lemma on_error_respects :
  respects keeps_identity (fun e => stops_context e = false) on_error.
Proof.
  intros w. unfold on_error. rewrite bind_unfold. simpl.
  destruct (bool_decide ("error" ∈ dom (tf_status (globals w)))); [|by split; [|constructor]].
  rewrite bind_unfold. simpl. unfold exception_handler.
  destruct (running (globals w)) eqn:Hr, (experiment_json (globals w)); simpl;
    (split; [by repeat split|]); by repeat constructor.
Qed.

Lemma finalize_respects :
  respects keeps_identity (fun e => stops_context e = false) finalize.
Proof.
  intros w. unfold finalize. rewrite bind_unfold. simpl.
  destruct (finalize_experiment (experiment_json (globals w))); simpl;
    [by split; [|constructor]|].
  split; [by repeat split|]. by repeat constructor.
Qed.

(** X1: whatever its outcome (it returns, raises, or is still waiting), a
    call of [shutdown] makes no call that stops the SparkContext, leaves
    [tf_status], [elastic_id], [run_id] and [app_id] as they were, and never
    sets [running]. *)
Theorem shutdown_respects self ssc w :
  Forall (fun e => stops_context e = false) (outcome_events (shutdown self ssc w))
  ∧ keeps_identity w (outcome_world (shutdown self ssc w)).
Proof.
  enough (respects keeps_identity (fun e => stops_context e = false) (shutdown self ssc))
    as H by (destruct (H w); done).
  unfold shutdown. destruct (identify (cluster_info self)) as [ps_list worker_list].
  apply respects_bind; [apply _| |intros _].
  { eapply respects_weaken; [| |apply drain_respects].
    - apply running_cleared_identity.
    - intros e [->|[->|[n ->]]]; done. }
  apply respects_bind; [apply _|apply on_error_respects|intros _].
  apply respects_bind; [apply _|apply finalize_respects|intros _].
  apply respects_bind; [apply _| |intros _].
  { intros v. split; [reflexivity|]. apply context_kept_stop_ps. }
  intros v. unfold with_polls. destruct (final_wait_respects (polls v) v) as [Hw He].
  split.
  - destruct Hw as (Hg & _). unfold keeps_identity. rewrite Hg. done.
  - eapply Forall_impl; [exact He|]. by intros e ->.
Qed.

(** X2: with a StreamingContext, the mode-specific wait of [shutdown] reads
    no status poll, schedules no worker shutdown job and leaves the globals
    alone, whatever its outcome; its only calls are graceful stops of the
    StreamingContext that keep the SparkContext. *)
Theorem drain_streaming self w :
  streaming_only w (outcome_world (drain self true w))
  ∧ Forall (fun e => e = SscStop false true) (outcome_events (drain self true w)).
Proof.
  unfold drain. destruct (identify (cluster_info self)) as [ps_list worker_list].
  unfold with_awaits. apply streaming_wait_respects.
Qed.

Lemma identify_lengths (cluster_info : list Node) :
  (length (identify cluster_info).1 + length (identify cluster_info).2
   = length cluster_info)%nat.
Proof.
  rewrite identify_filter. simpl.
  induction cluster_info as [|n l IH]; simpl; [done|].
  destruct (is_ps n); simpl; lia.
Qed.

(** X3: the split of lines 137-142 puts every node in exactly one list, in
    registry order: the nodes whose [job_name] is "ps" in the first, all
    others (a master or chief included) in the second; the two lengths add
    up to the size of the registry. *)
Theorem identify_partition (cluster_info : list Node) :
  (identify cluster_info).1 = List.filter is_ps cluster_info
  ∧ (identify cluster_info).2 = List.filter (fun n => negb (is_ps n)) cluster_info
  ∧ (∀ n, n ∈ (identify cluster_info).1 ↔ n ∈ cluster_info ∧ job_name n = "ps")
  ∧ (∀ n, n ∈ (identify cluster_info).2 ↔ n ∈ cluster_info ∧ job_name n ≠ "ps")
  ∧ (length (identify cluster_info).1 + length (identify cluster_info).2
     = length cluster_info)%nat.
Proof.
  split; [by rewrite identify_filter|]. split; [by rewrite identify_filter|].
  split; [|split; [|apply identify_lengths]]; intros n; rewrite identify_filter; simpl;
    rewrite list_elem_of_In, filter_In, <- list_elem_of_In; unfold is_ps.
  - by rewrite String.eqb_eq.
  - by rewrite negb_true_iff, String.eqb_neq.
Qed.

(** X4: outside TENSORFLOW mode and without a StreamingContext the wait of
    [shutdown] reads no status at all: it returns at once, having scheduled
    one shutdown task per node that is not a "ps" node. *)
Theorem drain_feed_mode self w :
  input_mode self ≠ InputMode.TENSORFLOW →
  drain self false w
  = Ret tt w
      [WorkerShutdownJob
         (Z.of_nat (length (cluster_info self))
          - Z.of_nat (length (List.filter is_ps (cluster_info self))))].
Proof.
  intros Hmode. unfold drain.
  pose proof (identify_lengths (cluster_info self)) as Hlen.
  rewrite identify_filter in *. simpl in Hlen.
  apply Z.eqb_neq in Hmode. rewrite Hmode. rewrite bind_unfold. simpl.
  do 3 f_equal. lia.
Qed.

Lemma drain_feed_mode_witness :
  input_mode cluster_with_master ≠ InputMode.TENSORFLOW
  ∧ drain cluster_with_master false (world_of running_globals [])
    = Ret tt (world_of running_globals []) [WorkerShutdownJob 2].
Proof.
  assert (input_mode cluster_with_master ≠ InputMode.TENSORFLOW) as Hmode by done.
  split; [exact Hmode|].
  exact (drain_feed_mode cluster_with_master (world_of running_globals []) Hmode).
Defined.

(** ** More on [shutdown] *)

Lemma tf_wait_polls nps answers : ∀ count w w' evs,
  tf_wait nps answers count w = Ret tt w' evs → polls w' `suffix_of` answers.
Proof.
  induction answers as [|p rest IH]; intros count w w' evs; simpl; [done|].
  destruct (0 <? Z.of_nat (length (active_jobs p))).
  - rewrite bind_Ret. intros (r & w1 & e1 & e2 & _ & Hk & _).
    destruct r.2.
    + injection Hk as <- _. simpl. by apply suffix_cons_r.
    + apply IH in Hk. by apply suffix_cons_r.
  - intros [= <- _]. simpl. by apply suffix_cons_r.
Qed.

Lemma drain_polls self ssc w w1 e1 :
  drain self ssc w = Ret tt w1 e1 → polls w1 `suffix_of` polls w.
Proof.
  unfold drain. destruct (identify (cluster_info self)) as [ps_list worker_list].
  destruct ssc.
  - unfold with_awaits. intros (_ & _ & -> & _)%streaming_wait_Ret. done.
  - rewrite bind_Ret. intros ([] & w2 & e2 & e3 & Hwait & [= <- _] & _).
    destruct (input_mode self =? InputMode.TENSORFLOW).
    + unfold with_polls in Hwait. by apply tf_wait_polls in Hwait.
    + by injection Hwait as <- _.
Qed.

Lemma final_wait_Ret answers : ∀ w w' evs,
  final_wait answers w = Ret tt w' evs → Exists (fun p => active_jobs p = []) answers.
Proof.
  induction answers as [|p rest IH]; intros w w' evs; simpl; [done|].
  rewrite bind_unfold. simpl.
  destruct (active_jobs p) as [|j js] eqn:Hj; simpl.
  - intros _. by apply Exists_cons_hd.
  - destruct (final_wait rest w) as [[] w2 e2| |] eqn:Hrec; [|done..].
    intros _. apply Exists_cons_tl. by eapply IH.
Qed.

Lemma on_error_polls w u w' evs : on_error w = Ret u w' evs → polls w' = polls w.
Proof.
  unfold on_error. rewrite bind_unfold. simpl.
  destruct (bool_decide _); [|by intros [= _ <- _]].
  rewrite bind_unfold. simpl. by intros [= _ <- _].
Qed.

Lemma finalize_polls w u w' evs : finalize w = Ret u w' evs → polls w' = polls w.
Proof.
  unfold finalize. rewrite bind_unfold. simpl.
  destruct (finalize_experiment _); [done|]. by intros [= _ <- _].
Qed.

(** X5: [shutdown] returns only after a status poll that reports no active
    jobs: while every poll shows active jobs, it does not return. *)
Theorem shutdown_returns_when_idle self ssc w w' evs :
  shutdown self ssc w = Ret tt w' evs →
  Exists (fun p => active_jobs p = []) (polls w).
Proof.
  unfold shutdown. destruct (identify (cluster_info self)) as [ps_list worker_list].
  rewrite bind_Ret. intros ([] & w1 & e1 & e2 & Hdrain & Hk & _).
  apply bind_Ret in Hk as (u2 & w2 & e3 & e4 & Herr & Hk & _).
  apply bind_Ret in Hk as (u3 & w3 & e5 & e6 & Hfin & Hk & _).
  apply bind_Ret in Hk as (u4 & w4 & e7 & e8 & [= _ <- _] & Hk & _).
  unfold with_polls in Hk. apply final_wait_Ret in Hk.
  apply finalize_polls in Hfin. apply on_error_polls in Herr.
  apply drain_polls in Hdrain as [k Hk'].
  rewrite Hk'. apply Exists_app. right. congruence.
Qed.

Lemma shutdown_returns_when_idle_witness :
  shutdown (cluster4 InputMode.SPARK) false (world_of running_globals [one_stage 3; idle])
  = Ret tt (world_of finished_globals [])
      ([WorkerShutdownJob 3; PutElastic (Some "application_1") 1 (Some finished_doc)]
       ++ stop_ps (node "host0" "1" "ps" 0 5000) ++ [Sleep 5; Sleep 5])
  ∧ Exists (fun p => active_jobs p = []) [one_stage 3; idle].
Proof.
  assert (shutdown (cluster4 InputMode.SPARK) false
            (world_of running_globals [one_stage 3; idle])
          = Ret tt (world_of finished_globals [])
              ([WorkerShutdownJob 3;
                PutElastic (Some "application_1") 1 (Some finished_doc)]
               ++ stop_ps (node "host0" "1" "ps" 0 5000) ++ [Sleep 5; Sleep 5])) as Hrun
    by (vm_compute; reflexivity).
  split; [exact Hrun|].
  exact (shutdown_returns_when_idle _ _ _ _ _ Hrun).
Defined.

Lemma drain_events_quiet self ssc w w1 e1 :
  drain self ssc w = Ret tt w1 e1 →
  Forall (fun e => is_cancel e = false ∧ is_audit_write e = false) e1.
Proof.
  intros Hd. pose proof (drain_respects self ssc w) as [_ He]. rewrite Hd in He.
  eapply Forall_impl; [exact He|]. intros e [->|[->|[n ->]]]; done.
Qed.

(** X6: a call of [shutdown] made with no error in [tf_status] and an
    experiment document present, whose mode-specific wait returns and
    whose engine then goes idle, cancels no job: after the wait it makes
    one audit write, then stops every "ps" node, then sleeps until the
    engine is idle. *)
Theorem shutdown_without_error self ssc w w1 e1 doc :
  "error" ∉ dom (tf_status (globals w)) →
  experiment_json (globals w) = Some doc →
  drain self ssc w = Ret tt w1 e1 →
  Exists (fun p => active_jobs p = []) (polls w1) →
  ∃ w' final_doc sleeps,
    finalize_experiment (Some doc) = inr final_doc
    ∧ shutdown self ssc w
      = Ret tt w'
          (e1 ++ [PutElastic (app_id (globals w)) (elastic_id (globals w))
                    (Some final_doc)]
              ++ flat_map stop_ps (List.filter is_ps (cluster_info self))
              ++ sleeps)
    ∧ Forall (fun e => e = Sleep 5) sleeps
    ∧ Forall (fun e => is_cancel e = false) (outcome_events (shutdown self ssc w))
    ∧ length (List.filter is_audit_write (outcome_events (shutdown self ssc w))) = 1%nat
    ∧ experiment_json (globals w') = Some final_doc.
Proof.
  intros Herr Hdoc Hdrain Hidle.
  pose proof (drain_frame _ _ _ _ _ Hdrain) as (Hg & Hnow & _).
  pose proof (drain_events_quiet _ _ _ _ _ Hdrain) as Hquiet.
  assert (tf_status (globals w1) = tf_status (globals w)
          ∧ experiment_json (globals w1) = experiment_json (globals w)
          ∧ app_id (globals w1) = app_id (globals w)
          ∧ elastic_id (globals w1) = elastic_id (globals w)) as (Hs & Hj & Ha & He).
  { destruct Hg as [->| ->]; done. }
  assert (on_error w1 = Ret tt w1 []) as Hon.
  { unfold on_error. rewrite bind_unfold. simpl.
    rewrite bool_decide_false by (by rewrite Hs). done. }
  destruct (finalize_doc w1 doc) as (final_doc & Hfd & Hfin); [by rewrite Hj|].
  unfold shutdown. rewrite identify_filter.
  rewrite bind_unfold, Hdrain, bind_unfold, Hon, bind_unfold, Hfin. simpl.
  rewrite bind_unfold. simpl. unfold with_polls. simpl.
  match goal with
  | |- context [final_wait _ ?w2] =>
      destruct (final_wait_returns (polls w1) w2 Hidle) as (w' & sleeps & -> & Hgw & Hsl)
  end.
  exists w', final_doc, sleeps. rewrite Ha, He. simpl.
  split; [done|]. split; [done|]. split; [done|].
  assert (Forall (fun e => is_cancel e = false ∧ is_audit_write e = false)
            (flat_map stop_ps (List.filter is_ps (cluster_info self)) ++ sleeps)) as Hrest.
  { apply Forall_app. split.
    - generalize (List.filter is_ps (cluster_info self)). intros l.
      induction l as [|n l IH]; simpl; [constructor|]. by repeat (constructor; [done|]).
    - eapply Forall_impl; [exact Hsl|]. by intros e ->. }
  split; [|split; [|by rewrite Hgw]].
  - apply Forall_app. split.
    + eapply Forall_impl; [exact Hquiet|]. by intros e [? _].
    + constructor; [done|]. eapply Forall_impl; [exact Hrest|]. by intros e [? _].
  - rewrite List.filter_app. simpl. rewrite length_app. simpl.
    assert (∀ l, Forall (fun e => is_cancel e = false ∧ is_audit_write e = false) l →
                 List.filter is_audit_write l = []) as Hnone.
    { intros l Hl. induction Hl as [|e l [_ He'] _ IH]; simpl; [done|]. by rewrite He'. }
    by rewrite (Hnone _ Hquiet), (Hnone _ Hrest).
Qed.

Lemma shutdown_without_error_witness :
("error" ∉ dom (tf_status running_globals))
  ∧ drain (cluster4 InputMode.SPARK) false (world_of running_globals [idle])
    = Ret tt (world_of running_globals [idle]) [WorkerShutdownJob 3]
  ∧ ∃ w' final_doc sleeps,
      shutdown (cluster4 InputMode.SPARK) false (world_of running_globals [idle])
      = Ret tt w'
          ([WorkerShutdownJob 3]
             ++ [PutElastic (Some "application_1") 1 (Some final_doc)]
             ++ flat_map stop_ps (List.filter is_ps four_nodes) ++ sleeps).
Proof.
  assert ("error" ∉ dom (tf_status running_globals)) as Herr.
  { simpl. rewrite dom_empty_L. apply not_elem_of_empty. }
  assert (drain (cluster4 InputMode.SPARK) false (world_of running_globals [idle])
          = Ret tt (world_of running_globals [idle]) [WorkerShutdownJob 3]) as Hdrain
    by reflexivity.
  split; [exact Herr|]. split; [exact Hdrain|].
  destruct (shutdown_without_error (cluster4 InputMode.SPARK) false
              (world_of running_globals [idle]) _ _ (populate_experiment "mnist")
              Herr eq_refl Hdrain)
    as (w' & fdoc & sleeps & _ & Hrun & _).
  { apply Exists_cons_hd. reflexivity. }
  exists w', fdoc, sleeps. exact Hrun.
Defined.

(** X7: the status-polling loop sleeps only when a stage matches. While
    every poll shows active jobs and fewer than three matches have been
    seen, it is still waiting after the polls, having slept 5 seconds once
    per match and not at all for a poll without a match. *)
Theorem tf_wait_sleeps_per_match nps answers w :
  Forall busy answers →
  total_matching nps answers < 3 →
  tf_wait nps answers 0 w
  = Starved (set_polls [] w)
      (replicate (Z.to_nat (total_matching nps answers)) (Sleep 5)).
Proof.
  enough (∀ count,
    Forall busy answers → count + total_matching nps answers < 3 →
    tf_wait nps answers count w
    = Starved (set_polls [] w)
        (replicate (Z.to_nat (total_matching nps answers)) (Sleep 5))) as H
    by (intros; apply (H 0); [done|lia]).
  induction answers as [|p rest IH]; intros count Hb Hlt; simpl; [done|].
  apply Forall_cons in Hb as [[Hjobs Hknown] Hb].
  rewrite jobs_test, bool_decide_true by done.
  destruct (scan_stages_known nps (active_stages p) count false w Hknown)
    as (r & e1 & Hscan).
  pose proof Hscan as (_ & Hr1 & Hr2 & ->)%scan_stages_Ret.
  pose proof (total_matching_nonneg nps rest) as Ht.
  pose proof (matching_nonneg nps (active_stages p)) as Hm.
  simpl in Hlt.
  assert (r.2 = false) as Hdone.
  { rewrite Hr2. destruct (_ =? 0); [done|]. apply Z.leb_gt. lia. }
  rewrite bind_unfold, Hscan, Hdone, (IH r.1) by (done || lia).
  f_equal. rewrite <- replicate_add. f_equal. lia.
Qed.

Lemma tf_wait_sleeps_per_match_witness :
  Forall busy [one_stage 2; one_stage 1; one_stage 2]
  ∧ total_matching 1 [one_stage 2; one_stage 1; one_stage 2] < 3
  ∧ tf_wait 1 [one_stage 2; one_stage 1; one_stage 2] 0 (world_of running_globals [])
    = Starved (world_of running_globals []) [Sleep 5].
Proof.
  assert (Forall busy [one_stage 2; one_stage 1; one_stage 2]) as Hb.
  { repeat constructor; simpl; try done; by eexists. }
  assert (total_matching 1 [one_stage 2; one_stage 1; one_stage 2] < 3) as Hlt
    by (vm_compute; reflexivity).
  split; [exact Hb|]. split; [exact Hlt|].
  exact (tf_wait_sleeps_per_match 1 [one_stage 2; one_stage 1; one_stage 2]
           (world_of running_globals []) Hb Hlt).
Defined.

Lemma scan_stages_unknown nps stages : ∀ count fin w id,
  (id, None) ∈ stages →
  ∃ sleeps, scan_stages nps stages count fin w = Exc Py.AttributeError w sleeps
            ∧ Forall (fun e => e = Sleep 5) sleeps.
Proof.
  induction stages as [|[id' [si|]] rest IH]; intros count fin w id Hin; simpl.
  - by apply elem_of_nil in Hin.
  - apply elem_of_cons in Hin as [[=]|Hin].
    destruct (numActiveTasks si =? nps).
    + destruct (IH (count + 1) (3 <=? count + 1) w id Hin) as (sleeps & Hrec & Hs).
      exists (Sleep 5 :: sleeps). rewrite bind_unfold. simpl. rewrite Hrec.
      split; [done|by constructor].
    + by apply (IH _ _ _ id).
  - exists []. split; [done|constructor].
Qed.

(** X8: in TENSORFLOW mode, when the first poll shows active jobs and the
    engine no longer knows one of the active stages it lists,
    [shutdown] raises [AttributeError] out of the polling loop: the globals
    are untouched, nothing is written to the audit sink, no job is
    cancelled and no "ps" node is stopped. *)
Theorem shutdown_unknown_stage self w p rest id :
  input_mode self = InputMode.TENSORFLOW →
  polls w = p :: rest →
  active_jobs p ≠ [] →
  (id, None) ∈ active_stages p →
  ∃ sleeps,
    shutdown self false w = Exc Py.AttributeError w sleeps
    ∧ Forall (fun e => e = Sleep 5) sleeps.
Proof.
  intros Hmode Hpolls Hjobs Hin. unfold shutdown, drain.
  destruct (identify (cluster_info self)) as [ps_list worker_list].
  rewrite Hmode. simpl. unfold with_polls. rewrite !bind_unfold, Hpolls. simpl.
  rewrite jobs_test, bool_decide_true by done.
  destruct (scan_stages_unknown (Z.of_nat (length ps_list)) (active_stages p) 0 false w id Hin)
    as (sleeps & Hscan & Hs).
  rewrite bind_unfold, Hscan. by exists sleeps.
Qed.

Lemma shutdown_unknown_stage_witness :
  input_mode (cluster4 InputMode.TENSORFLOW) = InputMode.TENSORFLOW
  ∧ ∃ sleeps,
      shutdown (cluster4 InputMode.TENSORFLOW) false
        (world_of running_globals
           [{| active_jobs := [7]; active_stages := [(3, None)] |}])
      = Exc Py.AttributeError
          (world_of running_globals
             [{| active_jobs := [7]; active_stages := [(3, None)] |}])
          sleeps.
Proof.
  split; [reflexivity|].
  destruct (shutdown_unknown_stage (cluster4 InputMode.TENSORFLOW)
              (world_of running_globals
                 [{| active_jobs := [7]; active_stages := [(3, None)] |}])
              {| active_jobs := [7]; active_stages := [(3, None)] |} [] 3
              eq_refl eq_refl)
    as (sleeps & Hrun & _).
  - discriminate.
  - apply list_elem_of_singleton. reflexivity.
  - exists sleeps. exact Hrun.
Defined.

(** X9: the last wait of [shutdown] sleeps 5 seconds before each poll and
    returns at the first poll without active jobs, leaving the later polls
    unread; while every poll shows active jobs it keeps waiting. *)
Theorem final_wait_first_idle before p rest w :
  Forall (fun q => active_jobs q ≠ []) before →
  (active_jobs p = [] →
   final_wait (before ++ p :: rest) w
   = Ret tt (set_polls rest w) (replicate (S (length before)) (Sleep 5)))
  ∧ final_wait before w
    = Starved (set_polls [] w) (replicate (S (length before)) (Sleep 5)).
Proof.
  intros Hb. induction Hb as [|q before Hq Hb [IH1 IH2]]; simpl.
  - split; [|done]. intros Hp. rewrite bind_unfold. simpl. by rewrite Hp.
  - rewrite !bind_unfold. simpl.
    destruct (active_jobs q) as [|j js] eqn:Hj; [done|]. simpl.
    split; [intros Hp; by rewrite (IH1 Hp)|by rewrite IH2].
Qed.

Lemma final_wait_first_idle_witness :
  Forall (fun q => active_jobs q ≠ []) [one_stage 1; one_stage 4]
  ∧ final_wait ([one_stage 1; one_stage 4] ++ idle :: [one_stage 1])
      (world_of running_globals [])
    = Ret tt (world_of running_globals [one_stage 1]) [Sleep 5; Sleep 5; Sleep 5].
Proof.
  assert (Forall (fun q => active_jobs q ≠ []) [one_stage 1; one_stage 4]) as Hb
    by (repeat constructor; discriminate).
  split; [exact Hb|].
  exact (proj1 (final_wait_first_idle [one_stage 1; one_stage 4] idle [one_stage 1]
                  (world_of running_globals []) Hb) eq_refl).
Defined.

(** ** The handlers *)

(** X10: a handler changes nothing but the keys "status" and "finished" of
    the experiment document: every other key of the document keeps its
    value, and [tf_status], the counters, [app_id] and [running] are left
    as they were. *)
Theorem handlers_touch_only_status now g :
  let touched handler :=
    tf_status (handler now g).1 = tf_status g
    ∧ elastic_id (handler now g).1 = elastic_id g
    ∧ run_id (handler now g).1 = run_id g
    ∧ app_id (handler now g).1 = app_id g
    ∧ running (handler now g).1 = running g
    ∧ (is_Some (experiment_json (handler now g).1) ↔ is_Some (experiment_json g))
    ∧ ∀ doc doc' k,
        experiment_json g = Some doc →
        experiment_json (handler now g).1 = Some doc' →
        k ≠ "status" → k ≠ "finished" → doc' !! k = doc !! k in
  touched exception_handler ∧ touched exit_handler.
Proof.
  split; unfold exception_handler, exit_handler;
    destruct (running g) eqn:Hr, (experiment_json g) as [d|] eqn:Hd; simpl;
    rewrite ?Hr, ?Hd; repeat split; try done;
    try (intros doc doc' k; congruence);
    intros doc doc' k [= <-] [= <-] Hs Hf; by rewrite ?lookup_insert_ne.
Qed.

(** X11: a handler writes to the audit sink exactly when [running] is set
    and there is an experiment document; otherwise it leaves the globals as
    they are. When it writes, it writes once, under the current
    [app_id] and [elastic_id]. *)
Theorem handlers_guard now g :
  let guarded handler :=
    ((handler now g).2 ≠ [] ↔ running g = true ∧ experiment_json g ≠ None)
    ∧ ((handler now g).2 = [] → (handler now g).1 = g)
    ∧ (∀ e, e ∈ (handler now g).2 →
            (handler now g).2
            = [PutElastic (app_id g) (elastic_id g) (experiment_json (handler now g).1)]) in
  guarded exception_handler ∧ guarded exit_handler.
Proof.
  split; unfold exception_handler, exit_handler;
    destruct (running g) eqn:Hr, (experiment_json g) as [d|] eqn:Hd; simpl;
    rewrite ?Hd; (split; [|split]); try done;
    try (split; [done|intros [? ?]; congruence]);
    try (intros e He; by apply elem_of_nil in He).
Qed.

(** X12: the handlers overwrite each other: with [running] set and a
    document present, the exit handler run after the failure handler leaves
    status KILLED, the failure handler run after the exit handler leaves
    status FAILED; and a handler run twice at the same clock reading leaves
    the document it leaves when run once. *)
Theorem handlers_last_writer_wins t1 t2 g doc :
  running g = true →
  experiment_json g = Some doc →
  (∃ d, experiment_json (exit_handler t2 (exception_handler t1 g).1).1 = Some d
        ∧ status_of d = Some "KILLED" ∧ d !! "finished" = Some t2)
  ∧ (∃ d, experiment_json (exception_handler t2 (exit_handler t1 g).1).1 = Some d
          ∧ status_of d = Some "FAILED" ∧ d !! "finished" = Some t2)
  ∧ (exception_handler t1 (exception_handler t1 g).1).1 = (exception_handler t1 g).1
  ∧ (exit_handler t1 (exit_handler t1 g).1).1 = (exit_handler t1 g).1.
Proof.
  intros Hr Hd.
  rewrite (exception_handler_running t1 g doc), (exit_handler_running t1 g doc) by done.
  simpl.
  split; [|split; [|split]].
  - erewrite exit_handler_running by done. simpl. eexists. split; [done|].
    split; [|apply lookup_insert_eq].
    unfold status_of. rewrite lookup_insert_ne by done. apply lookup_insert_eq.
  - erewrite exception_handler_running by done. simpl. eexists. split; [done|].
    split; [|apply lookup_insert_eq].
    unfold status_of, failed_doc. rewrite lookup_insert_ne by done. apply lookup_insert_eq.
  - erewrite exception_handler_running by done. simpl. unfold set_experiment_json.
    simpl. do 2 f_equal. unfold failed_doc.
    apply map_eq. intros k.
    destruct (decide (k = "finished")) as [->|]; [by rewrite !lookup_insert_eq|].
    rewrite !(lookup_insert_ne _ "finished") by done.
    destruct (decide (k = "status")) as [->|]; [by rewrite !lookup_insert_eq|].
    by rewrite !lookup_insert_ne.
  - erewrite exit_handler_running by done. simpl. unfold set_experiment_json.
    simpl. do 2 f_equal.
    apply map_eq. intros k.
    destruct (decide (k = "finished")) as [->|]; [by rewrite !lookup_insert_eq|].
    rewrite !(lookup_insert_ne _ "finished") by done.
    destruct (decide (k = "status")) as [->|]; [by rewrite !lookup_insert_eq|].
    by rewrite !lookup_insert_ne.
Qed.

Lemma handlers_last_writer_wins_witness :
  running running_globals = true
  ∧ experiment_json running_globals = Some (populate_experiment "mnist")
  ∧ ∃ d, experiment_json
           (exit_handler "2018-01-01T00:00:09"
              (exception_handler "2018-01-01T00:00:03" running_globals).1).1 = Some d
         ∧ status_of d = Some "KILLED".
Proof.
  split; [reflexivity|]. split; [reflexivity|].
  destruct (proj1 (handlers_last_writer_wins "2018-01-01T00:00:03" "2018-01-01T00:00:09"
                     running_globals (populate_experiment "mnist") eq_refl eq_refl))
    as (d & Hd & Hs & _).
  exists d. split; [exact Hd|exact Hs].
Defined.

(** ** More on [run] *)

(** X13: with valid role counts, [run] refuses [driver_ps_nodes] and, after
    that, a non-empty [log_dir], each with its own exception and before it
    starts the server or the thread or writes to the audit sink (the
    counters are bumped by then); an empty [log_dir] string is accepted
    like [None]. *)
Theorem run_rejects_options args env g :
  num_ps args < num_executors args →
  (driver_ps_nodes args = true →
   run args env g = (Raised driver_ps_nodes_error, bump_counters g, []))
  ∧ (driver_ps_nodes args = false → Py.truthy (log_dir args) = true →
     run args env g = (Raised log_dir_error, bump_counters g, []))
  ∧ (log_dir args = Some "" →
     run args env g
     = run {| num_executors := num_executors args; num_ps := num_ps args;
              arg_input_mode := arg_input_mode args; log_dir := None;
              driver_ps_nodes := driver_ps_nodes args;
              master_node := master_node args;
              reservation_timeout := reservation_timeout args; name := name args;
              local_logdir := local_logdir args; arg_queues := arg_queues args |}
         env g).
Proof.
  intros Hlt. unfold run.
  destruct (Z.ltb_spec (num_ps args) (num_executors args)); [simpl|lia].
  split; [|split].
  - by intros ->.
  - by intros -> ->.
  - intros ->. simpl. destruct (Z.ltb_spec (num_ps args) (num_executors args)); [done|lia].
Qed.

Lemma run_rejects_options_witness :
  num_ps (args4 InputMode.SPARK) < num_executors (args4 InputMode.SPARK)
  ∧ run {| num_executors := 4; num_ps := 1; arg_input_mode := InputMode.SPARK;
           log_dir := Some "/tmp/logs"; driver_ps_nodes := false; master_node := None;
           reservation_timeout := 600; name := "mnist"; local_logdir := false;
           arg_queues := ["input"; "output"; "error"] |} env4 initial_globals
    = (Raised log_dir_error, bump_counters initial_globals, []).
Proof.
  split; [reflexivity|].
  exact (proj1 (proj2 (run_rejects_options
           {| num_executors := 4; num_ps := 1; arg_input_mode := InputMode.SPARK;
              log_dir := Some "/tmp/logs"; driver_ps_nodes := false; master_node := None;
              reservation_timeout := 600; name := "mnist"; local_logdir := false;
              arg_queues := ["input"; "output"; "error"] |} env4 initial_globals
           ltac:(reflexivity))) eq_refl eq_refl).
Defined.

Lemma run_elastic_id args env g :
  elastic_id (run args env g).1.2 = elastic_id g + 1.
Proof.
  unfold run.
  destruct (num_ps args <? num_executors args); simpl; [|done].
  destruct (driver_ps_nodes args); [done|].
  destruct (Py.truthy (log_dir args)); [done|].
  destruct (await_gpu_check _ _); [|done].
  destruct (await_reservations _ _ _); [done|].
  destruct (check_duplicates _ _); done.
Qed.

(** X14: every call of [run], whatever its outcome, increments [elastic_id]
    and [run_id] by one and sets [running], and none clears [tf_status]: an
    error recorded by the thread of an earlier run is still there after a
    later call. *)
Theorem run_counters args env g :
  elastic_id (run args env g).1.2 = elastic_id g + 1
  ∧ run_id (run args env g).1.2 = run_id g + 1
  ∧ running (run args env g).1.2 = true
  ∧ tf_status (run args env g).1.2 = tf_status g.
Proof.
  unfold run.
  destruct (num_ps args <? num_executors args); simpl; [|done].
  destruct (driver_ps_nodes args); [done|].
  destruct (Py.truthy (log_dir args)); [done|].
  destruct (await_gpu_check _ _); [|done].
  destruct (await_reservations _ _ _); [done|].
  destruct (check_duplicates _ _); done.
Qed.

(** X15: the calls made by [run] are none at all (a rejected call), or the
    start of the reservation server, then the audit write of the freshly
    populated document under the new [elastic_id], then the start of the
    background thread. In particular a call that times out or finds a
    duplicate node has started the thread, cancels nothing, and leaves
    [running] set with that document in place. *)
Theorem run_calls args env g :
  ((run args env g).2 = []
   ∧ experiment_json (run args env g).1.2 = experiment_json g
   ∧ app_id (run args env g).1.2 = app_id g
   ∧ ∃ e, (run args env g).1.1 = Raised e)
  ∨ ((run args env g).2
     = [ServerStart (num_executors args);
        PutElastic (Some (applicationId env)) (elastic_id g + 1)
          (Some (populate_experiment (name args)));
        ThreadStart]
     ∧ experiment_json (run args env g).1.2 = Some (populate_experiment (name args))
     ∧ app_id (run args env g).1.2 = Some (applicationId env)
     ∧ running (run args env g).1.2 = true).
Proof.
  unfold run.
  destruct (num_ps args <? num_executors args); simpl; [|left; eauto].
  destruct (driver_ps_nodes args); [left; eauto|].
  destruct (Py.truthy (log_dir args)); [left; eauto|].
  right.
  destruct (await_gpu_check _ _); [|done].
  destruct (await_reservations _ _ _); [done|].
  destruct (check_duplicates _ _); done.
Qed.

(** X16: the audit label ['dist' + str(elastic_id)] is different for
    different values of [elastic_id], so the labels under which two
    successive calls of [run] leave the globals differ. *)
Theorem dist_label_distinct args1 env1 args2 env2 g :
  (∀ m n, dist_label m = dist_label n → m = n)
  ∧ dist_label (elastic_id (run args2 env2 (run args1 env1 g).1.2).1.2)
    ≠ dist_label (elastic_id (run args1 env1 g).1.2).
Proof.
  assert (∀ m n, dist_label m = dist_label n → m = n) as Hinj.
  { intros m n H. unfold dist_label, py_str in H.
    apply (inj (String.app "dist")) in H. by apply (inj pretty) in H. }
  split; [exact Hinj|].
  intros H%Hinj.
  pose proof (run_elastic_id args2 env2 (run args1 env1 g).1.2) as He.
  lia.
Qed.

(** X17: for a given experiments directory and application, different run
    ids give different log directories. *)
Theorem get_logdir_inj experiments_dir app r1 r2 :
  get_logdir experiments_dir app r1 = get_logdir experiments_dir app r2 → r1 = r2.
Proof.
  unfold get_logdir, py_str. intros H.
  repeat apply (inj (String.app _)) in H. by apply (inj pretty) in H.
Qed.

Lemma get_logdir_inj_witness :
  get_logdir "hdfs:///Projects/demo/Experiments" "application_1" 2
  = "hdfs:///Projects/demo/Experiments/application_1/tensorflowonspark/run.2"
  ∧ 2 = 2.
Proof.
  assert (get_logdir "hdfs:///Projects/demo/Experiments" "application_1" 2
          = get_logdir "hdfs:///Projects/demo/Experiments" "application_1" 2) as H
    by reflexivity.
  split; [vm_compute; reflexivity|].
  exact (get_logdir_inj _ _ 2 2 H).
Defined.

(** ** The default filesystem *)

Lemma substring_all (s : string) : String.substring 0 (String.length s) s = s.
Proof. induction s as [|c s IH]; simpl; [done|]. by rewrite IH. Qed.

Lemma substring_split (s : string) : ∀ n,
  (n ≤ String.length s)%nat →
  String.substring 0 n s +:+ String.substring n (String.length s - n) s = s.
Proof.
  induction s as [|c s IH]; intros [|n] Hn; simpl in *; try done; try lia.
  - change (String c (String.substring 0 (String.length s) s) = String c s).
    by rewrite substring_all.
  - change (String c (String.substring 0 n s
                      +:+ String.substring n (String.length s - n) s) = String c s).
    rewrite IH by lia. done.
Qed.

Lemma prefix_substring (p : string) : ∀ s n,
  String.prefix p s = true → (String.length p ≤ n)%nat →
  String.prefix p (String.substring 0 n s) = true.
Proof.
  induction p as [|a p IH]; intros s n Hp Hn; simpl in *.
  { by destruct (String.substring 0 n s). }
  destruct s as [|b s]; [done|]. destruct n as [|n]; [lia|]. simpl.
  revert Hp. change (String.prefix (String a p) (String b s))
    with (if Ascii.ascii_dec a b then String.prefix p s else false).
  destruct (Ascii.ascii_dec a b); [|done]. intros Hp. apply IH; [done|lia].
Qed.

(** X18: lines 286-289 alter the filesystem URI only by removing one
    trailing "/" from a URI that starts with "file://" and is longer than
    that; the result still starts with "file://". Any other URI, a trailing
    slash or not, and "file://" itself are left as they are. *)
Theorem strip_root_slash_spec (defaultFS : string) :
  (strip_root_slash defaultFS = defaultFS
   ∨ defaultFS = strip_root_slash defaultFS +:+ "/"
     ∧ String.prefix "file://" (strip_root_slash defaultFS) = true
     ∧ (7 < String.length defaultFS)%nat)
  ∧ (String.prefix "file://" defaultFS = false → strip_root_slash defaultFS = defaultFS)
  ∧ ((String.length defaultFS ≤ 7)%nat → strip_root_slash defaultFS = defaultFS).
Proof.
  unfold strip_root_slash.
  destruct (String.prefix "file://" defaultFS) eqn:Hp; simpl; [|auto].
  destruct (Z.ltb_spec 7 (Z.of_nat (String.length defaultFS))) as [Hlen|Hlen]; simpl;
    [|split; [auto|split; [done|auto]]].
  case_bool_decide as Hlast; [|split; [auto|split; [done|intros; lia]]].
  split; [right|split; [done|intros; lia]].
  split; [|split; [|lia]].
  - rewrite <- Hlast.
    pose proof (substring_split defaultFS (String.length defaultFS - 1) ltac:(lia)) as H.
    replace (String.length defaultFS - (String.length defaultFS - 1))%nat with 1%nat in H
      by lia.
    done.
  - apply prefix_substring; [done|simpl; lia].
Qed.

Example strip_root_slash_examples :
  strip_root_slash "file:///" = "file://"
  ∧ strip_root_slash "file:///tmp/" = "file:///tmp"
  ∧ strip_root_slash "hdfs://namenode:8020/" = "hdfs://namenode:8020/"
  ∧ strip_root_slash "file:///tmp//" = "file:///tmp/".
Proof. repeat split. Qed.

(** ** More on the role ranges *)

(** X19: for [0 <= num_ps < num_executors] the ranges of the table
    partition [[0, num_executors)] exactly when the master name does not
    collide with a role that is in use: a master named "ps" is harmless
    only without parameter servers, a master named "worker" only when no
    node is left for the workers. *)
Theorem cluster_template_partitions_iff num_ps n master :
  0 ≤ num_ps < n →
  partitions (build_cluster_template num_ps n master) n
  ↔ (master = Some "ps" → num_ps = 0) ∧ (master = Some "worker" → n = num_ps + 1).
Proof.
  intros Hn. unfold build_cluster_template. split.
  - intros [Hcover _]. split; intros ->.
    + destruct (decide (num_ps = 0)) as [|Hne]; [done|].
      destruct (Hcover 0 ltac:(lia)) as (role & Hc & _). revert Hc.
      destruct (num_ps + 1 <? n);
        rewrite !covers_insert, covers_empty, !elem_of_range; naive_solver lia.
    + destruct (Z.ltb_spec (num_ps + 1) n) as [Hlt|Hge]; [|lia].
      destruct (Hcover num_ps ltac:(lia)) as (role & Hc & _). revert Hc.
      rewrite !covers_insert, covers_empty, !elem_of_range. naive_solver lia.
  - intros [Hps Hw]. destruct master as [m|].
    + destruct (Z.ltb_spec (num_ps + 1) n) as [Hlt|Hge]; (split; [|ranges_ok]);
        intros i Hi.
      * assert (m ≠ "worker") by (intros ->; specialize (Hw eq_refl); lia).
        destruct (decide (m = "ps")) as [->|].
        -- specialize (Hps eq_refl).
           assert (i = num_ps ∨ num_ps < i) as [Hc|Hc] by lia;
             [covered_by "ps"|covered_by "worker"].
        -- assert (i < num_ps ∨ i = num_ps ∨ num_ps < i) as [Hc|[Hc|Hc]] by lia;
             [covered_by "ps"|covered_by m|covered_by "worker"].
      * destruct (decide (m = "ps")) as [->|].
        -- specialize (Hps eq_refl). covered_by "ps".
        -- assert (i < num_ps ∨ i = num_ps) as [Hc|Hc] by lia;
             [covered_by "ps"|covered_by m].
    + split; [|ranges_ok]. intros i Hi.
      assert (i < num_ps ∨ num_ps ≤ i) as [Hc|Hc] by lia;
        [covered_by "ps"|covered_by "worker"].
Qed.

Lemma cluster_template_partitions_iff_witness :
  0 ≤ 2 < 3
  ∧ partitions (build_cluster_template 2 3 (Some "worker")) 3
  ∧ ¬ partitions (build_cluster_template 2 4 (Some "worker")) 4.
Proof.
  split; [lia|]. split.
  - apply (cluster_template_partitions_iff 2 3 (Some "worker")); [lia|].
    split; [discriminate|reflexivity].
  - intros H. apply (cluster_template_partitions_iff 2 4 (Some "worker")) in H; [|lia].
    destruct H as [_ H]. specialize (H eq_refl). lia.
Defined.

(** ** More on the registry *)

(** X20: when [run] raises for a duplicate, the node it names is the first
    one, in registry order, whose pair (host, executor_id) repeats that of
    an earlier node: the nodes before it are pairwise distinct. *)
Theorem run_reports_first_duplicate args env g reg e :
  completes_registry args env reg →
  (run args env g).1.1 = Raised e →
  ∃ before again after,
    reg = before ++ again :: after
    ∧ e = Py.Exception (duplicate_message (host again) (executor_id again))
    ∧ NoDup (node_id <$> before)
    ∧ node_id again ∈ node_id <$> before.
Proof.
  intros Hreg. destruct (run_with_registry args env g reg Hreg) as (meta & g' & evs & ->).
  simpl. destruct (check_duplicates reg ∅) as [e'|] eqn:Hcheck; [|done].
  intros [= ->].
  apply check_duplicates_Some in Hcheck
    as (before & again & after & -> & -> & [Hin|Hin] & Hbefore);
    [by apply not_elem_of_empty in Hin|].
  apply check_duplicates_None in Hbefore as [Hnd _].
  by exists before, again, after.
Qed.

Lemma run_reports_first_duplicate_witness :
  completes_registry (args4 InputMode.SPARK) env_duplicated duplicated_nodes
  ∧ (run (args4 InputMode.SPARK) env_duplicated initial_globals).1.1
    = Raised (Py.Exception (duplicate_message "host1" "2"))
  ∧ ∃ before again after,
      duplicated_nodes = before ++ again :: after
      ∧ NoDup (node_id <$> before)
      ∧ node_id again ∈ node_id <$> before.
Proof.
  assert (completes_registry (args4 InputMode.SPARK) env_duplicated duplicated_nodes)
    as Hreg by (repeat split; by eauto).
  assert ((run (args4 InputMode.SPARK) env_duplicated initial_globals).1.1
          = Raised (Py.Exception (duplicate_message "host1" "2"))) as Hrun
    by (vm_compute; reflexivity).
  split; [exact Hreg|]. split; [exact Hrun|].
  destruct (run_reports_first_duplicate _ _ _ _ _ Hreg Hrun)
    as (before & again & after & Heq & _ & Hnd & Hin).
  exists before, again, after. split; [exact Heq|]. split; [exact Hnd|exact Hin].
Defined.

(** ** TensorBoard URLs *)

Lemma fold_last_some (c : Node → bool) (u : Node → string) (l : list Node) : ∀ acc,
  fold_left (fun (tb_url : option string) node => if c node then Some (u node) else tb_url)
    l acc
  = match last (List.filter c l) with
    | Some n => Some (u n)
    | None => acc
    end.
Proof.
  induction l as [|n l IH]; intros acc; simpl; [done|].
  rewrite IH. destruct (c n); simpl; [|done].
  destruct (List.filter c l) as [|m k] eqn:Hf; simpl; [done|].
  destruct (last (m :: k)) eqn:Hl; [done|]. by apply last_None in Hl.
Qed.

Lemma last_filter_None (c : Node → bool) (l : list Node) :
  last (List.filter c l) = None ↔ Forall (fun n => c n = false) l.
Proof.
  rewrite last_None. induction l as [|n l IH]; simpl.
  - split; [constructor|done].
  - rewrite Forall_cons. destruct (c n).
    + split; [done|]. by intros [? _].
    + rewrite IH. split; [done|]. by intros [_ ?].
Qed.

Lemma last_filter_Some (c : Node → bool) (l : list Node) n :
  last (List.filter c l) = Some n
  ↔ ∃ before after, l = before ++ n :: after ∧ c n = true
                    ∧ Forall (fun m => c m = false) after.
Proof.
  split.
  - induction l as [|m l IH]; simpl; [done|].
    destruct (c m) eqn:Hm.
    + destruct (last (List.filter c l)) as [n'|] eqn:Hl.
      * rewrite last_cons, Hl. intros [= ->].
        destruct (IH eq_refl) as (before & after & -> & Hn & Ha).
        by exists (m :: before), after.
      * rewrite last_cons, Hl. intros [= ->].
        exists [], l. split; [done|]. split; [done|]. by apply last_filter_None.
    + intros (before & after & -> & Hn & Ha)%IH. by exists (m :: before), after.
  - intros (before & after & -> & Hn & Ha). rewrite List.filter_app. simpl. rewrite Hn.
    apply last_filter_None, last_None in Ha. rewrite Ha. by rewrite last_snoc.
Qed.

(** X22: the URL that [run] logs is that of the last node of the registry
    with a non-zero TensorBoard port, whatever its role; it is [None]
    exactly when every node has port 0. *)
Theorem find_tb_url_last (nodes : list Node) :
  (find_tb_url nodes = None ↔ Forall (fun n => tb_port n = 0) nodes)
  ∧ (∀ before n after,
       nodes = before ++ n :: after →
       tb_port n ≠ 0 →
       Forall (fun m => tb_port m = 0) after →
       find_tb_url nodes = Some ("http://" +:+ host n +:+ ":" +:+ py_str (tb_port n))).
Proof.
  unfold find_tb_url.
  rewrite (fold_last_some (fun n => negb (tb_port n =? 0))
             (fun n => format_tb_url (host n) (tb_port n))).
  assert (∀ l, Forall (fun n => negb (tb_port n =? 0) = false) l
               ↔ Forall (fun n => tb_port n = 0) l) as Hzero.
  { intros l. apply Forall_proper; [|done]. intros n.
    rewrite negb_false_iff. apply Z.eqb_eq. }
  split.
  - rewrite <- Hzero, <- last_filter_None.
    by destruct (last (List.filter _ nodes)).
  - intros before n after Heq Hn Ha.
    assert (last (List.filter (fun n => negb (tb_port n =? 0)) nodes) = Some n) as ->;
      [|done].
    apply last_filter_Some. exists before, after. split; [done|].
    split; [|by apply Hzero]. apply negb_true_iff. by apply Z.eqb_neq.
Qed.

(** ** More on the background thread *)

(** X23: after the thread body, [tf_status] holds an error exactly when it
    held one before or the dispatch raised; a dispatch that returns leaves
    the globals untouched and writes nothing; neither way are the counters,
    [app_id] or [running] changed, and the dispatch runs in the background
    exactly in SPARK mode. *)
Theorem start_error_iff args bootstrap now g :
  ("error" ∈ dom (tf_status (_start args bootstrap now g).1.2)
   ↔ "error" ∈ dom (tf_status g) ∨ is_Some bootstrap)
  ∧ (bootstrap = None →
     _start args bootstrap now g
     = (None, g, [NodeJob (num_executors args)
                    (bool_decide (arg_input_mode args = InputMode.SPARK))]))
  ∧ elastic_id (_start args bootstrap now g).1.2 = elastic_id g
  ∧ run_id (_start args bootstrap now g).1.2 = run_id g
  ∧ app_id (_start args bootstrap now g).1.2 = app_id g
  ∧ running (_start args bootstrap now g).1.2 = running g.
Proof.
  assert ((arg_input_mode args =? InputMode.SPARK)
          = bool_decide (arg_input_mode args = InputMode.SPARK)) as Hmode.
  { destruct (Z.eqb_spec (arg_input_mode args) InputMode.SPARK);
      [by rewrite bool_decide_true|by rewrite bool_decide_false]. }
  unfold _start. rewrite Hmode. destruct bootstrap as [e|]; simpl.
  - assert ("error" ∈ dom (<["error" := str e]> (tf_status g))
            ↔ "error" ∈ dom (tf_status g) ∨ is_Some (Some e)) as Hdom.
    { rewrite dom_insert_L. split; [eauto|set_solver]. }
    unfold exception_handler. simpl.
    destruct (running g) eqn:Hr, (experiment_json g); simpl; rewrite ?Hr;
      (split; [exact Hdom|by repeat split]).
  - split; [|done]. split; [auto|]. intros [?|[? [=]]]. done.
Qed.

(** ** TENSORFLOW mode and the [running] flag *)

(** A [shutdown] whose wait returns and whose engine then goes idle
    returns, with [running] as the wait left it. *)
Lemma shutdown_returns self ssc w w1 e1 doc :
  experiment_json (globals w) = Some doc →
  drain self ssc w = Ret tt w1 e1 →
  Exists (fun p => active_jobs p = []) (polls w1) →
  ∃ w' evs, shutdown self ssc w = Ret tt w' evs
            ∧ running (globals w') = running (globals w1).
Proof.
  intros Hdoc Hdrain Hidle.
  pose proof (drain_frame _ _ _ _ _ Hdrain) as (Hg & _ & _).
  assert (experiment_json (globals w1) = Some doc) as Hj
    by (destruct Hg as [->| ->]; done).
  assert (∃ w2 e2 doc2, on_error w1 = Ret tt w2 e2 ∧ polls w2 = polls w1
                        ∧ experiment_json (globals w2) = Some doc2
                        ∧ running (globals w2) = running (globals w1))
    as (w2 & e2 & doc2 & Hon & Hp2 & Hj2 & Hr2).
  { unfold on_error. rewrite bind_unfold. simpl.
    destruct (bool_decide ("error" ∈ dom (tf_status (globals w1)))).
    - rewrite bind_unfold. simpl. unfold exception_handler. rewrite Hj.
      destruct (running (globals w1)) eqn:Hr; simpl; eexists _, _, _;
        (split; [reflexivity|]); simpl; by rewrite ?Hj, ?Hr.
    - eexists _, _, _. split; [reflexivity|]. done. }
  destruct (finalize_doc w2 doc2 Hj2) as (final_doc & _ & Hfin).
  unfold shutdown. rewrite identify_filter.
  rewrite bind_unfold, Hdrain, bind_unfold, Hon, bind_unfold, Hfin. simpl.
  rewrite bind_unfold. simpl. unfold with_polls. simpl. rewrite Hp2.
  match goal with
  | |- context [final_wait _ ?w3] =>
      destruct (final_wait_returns (polls w1) w3 Hidle) as (w' & sleeps & -> & Hgw & _)
  end.
  eexists _, _. split; [reflexivity|]. by rewrite Hgw.
Qed.

(** X24: in TENSORFLOW mode, when the polls show a busy engine with fewer
    than three matches and then an idle one, [shutdown] returns with
    [running] cleared, and from then on neither handler writes to the audit
    sink: the exit handler that runs at interpreter exit leaves the record
    of the shutdown in place. *)
Theorem shutdown_idle_clears_running self w before p rest doc now' :
  input_mode self = InputMode.TENSORFLOW →
  experiment_json (globals w) = Some doc →
  polls w = before ++ p :: rest →
  Forall busy before →
  total_matching (Z.of_nat (length (List.filter is_ps (cluster_info self)))) before < 3 →
  active_jobs p = [] →
  Exists (fun q => active_jobs q = []) rest →
  ∃ w' evs,
    shutdown self false w = Ret tt w' evs
    ∧ running (globals w') = false
    ∧ exit_handler now' (globals w') = (globals w', [])
    ∧ exception_handler now' (globals w') = (globals w', []).
Proof.
  intros Hmode Hdoc Hpolls Hbusy Hlt Hp Hidle.
  set (nps := Z.of_nat (length (List.filter is_ps (cluster_info self)))) in *.
  destruct (tf_wait_goes_on nps before 0 w Hbusy ltac:(lia)) as (ws & es & Hs & _).
  destruct (tf_wait_idle nps before p rest 0 w ws es Hs Hp)
    as (w1 & e1 & Hwait & Hrest & Hrun).
  assert (drain self false w
          = Ret tt w1 (e1 ++ [WorkerShutdownJob
                                (Z.of_nat (length (List.filter (fun n => negb (is_ps n))
                                                      (cluster_info self))))]))
    as Hdrain.
  { unfold drain. rewrite identify_filter, Hmode. simpl.
    rewrite bind_unfold. unfold with_polls. rewrite Hpolls. fold nps. by rewrite Hwait. }
  destruct (shutdown_returns self false w w1 _ doc Hdoc Hdrain) as (w' & evs & Hret & Hr).
  { by rewrite Hrest. }
  exists w', evs. split; [done|]. rewrite Hrun in Hr. split; [done|].
  by destruct (handlers_silent_when_stopped now' (globals w') Hr).
Qed.

Lemma shutdown_idle_clears_running_witness :
  input_mode (cluster4 InputMode.TENSORFLOW) = InputMode.TENSORFLOW
  ∧ Forall busy [one_stage 1; one_stage 1]
  ∧ total_matching 1 [one_stage 1; one_stage 1] < 3
  ∧ ∃ w' evs,
      shutdown (cluster4 InputMode.TENSORFLOW) false
        (world_of running_globals ([one_stage 1; one_stage 1] ++ idle :: [idle]))
      = Ret tt w' evs
      ∧ running (globals w') = false
      ∧ exit_handler "2018-01-01T00:00:09" (globals w') = (globals w', []).
Proof.
  assert (Forall busy [one_stage 1; one_stage 1]) as Hb.
  { repeat constructor; simpl; try done; by eexists. }
  assert (total_matching 1 [one_stage 1; one_stage 1] < 3) as Hlt
    by (vm_compute; reflexivity).
  split; [reflexivity|]. split; [exact Hb|]. split; [exact Hlt|].
  destruct (shutdown_idle_clears_running (cluster4 InputMode.TENSORFLOW)
              (world_of running_globals ([one_stage 1; one_stage 1] ++ idle :: [idle]))
              [one_stage 1; one_stage 1] idle [idle] (populate_experiment "mnist")
              "2018-01-01T00:00:09" eq_refl eq_refl eq_refl Hb Hlt eq_refl)
    as (w' & evs & Hret & Hrun & Hexit & _).
  { apply Exists_cons_hd. reflexivity. }
  exists w', evs. split; [exact Hret|]. split; [exact Hrun|exact Hexit].
Defined.

(** ** More on [train] *)


(** ** The streaming wait *)

Lemma bind_quiet {A B} (m : M A) (f : A → M B) w a w1 :
  m w = Ret a w1 [] → (m ≫= f) w = f a w1.
Proof. intros Hm. rewrite bind_unfold, Hm. by destruct (f a w1). Qed.

(** [k] rounds in which neither the StreamingContext nor the server is done. *)
Lemma streaming_wait_rounds k : ∀ answers dones w,
  server_done w = replicate (2 * k) false ++ dones →
  streaming_wait (replicate k false ++ answers) w
  = streaming_wait answers (set_server_done dones w).
Proof.
  induction k as [|k IH]; intros answers dones w Hd; simpl in *.
  - destruct w. simpl in *. by subst.
  - replace (k + S (k + 0))%nat with (S (2 * k)) in Hd by lia. simpl in Hd.
    erewrite bind_quiet; [|unfold read_server_done; by rewrite Hd].
    erewrite bind_quiet; [|reflexivity].
    erewrite bind_quiet; [|unfold read_server_done; reflexivity].
    simpl. by rewrite (IH answers dones).
Qed.

(** X26: after any number of rounds in which neither is done, the
    streaming wait ends in one of three ways. If the StreamingContext has
    terminated, it returns without reading [server.done] and without
    stopping anything. Otherwise it reads [server.done] twice: when the
    second reading is true it returns, having stopped the StreamingContext
    gracefully exactly when the first reading was true as well. *)
Theorem streaming_wait_exits k rest dones w :
  server_done w = replicate (2 * k) false ++ dones →
  streaming_wait (replicate k false ++ true :: rest) w
  = Ret tt (set_awaits rest (set_server_done dones w)) []
  ∧ ∀ d1 later,
      dones = d1 :: true :: later →
      streaming_wait (replicate k false ++ false :: rest) w
      = Ret tt (set_awaits rest (set_server_done later w))
          (if d1 then [SscStop false true] else []).
Proof.
  intros Hd. split.
  - by rewrite (streaming_wait_rounds k _ dones).
  - intros d1 later ->. rewrite (streaming_wait_rounds k _ (d1 :: true :: later)) by done.
    simpl. rewrite !bind_unfold. simpl. by destruct d1.
Qed.

Lemma streaming_wait_exits_witness :
  server_done
    {| globals := running_globals; polls := []; awaits := [false; false];
       server_done := [false; false; false; true]; now := "2018-01-01T00:00:00" |}
  = replicate (2 * 1) false ++ [false; true]
  ∧ streaming_wait (replicate 1 false ++ false :: [])
      {| globals := running_globals; polls := []; awaits := [false; false];
         server_done := [false; false; false; true]; now := "2018-01-01T00:00:00" |}
    = Ret tt
        {| globals := running_globals; polls := []; awaits := [];
           server_done := []; now := "2018-01-01T00:00:00" |} [].
Proof.
  split; [reflexivity|].
  exact (proj2 (streaming_wait_exits 1 [] [false; true]
                  {| globals := running_globals; polls := []; awaits := [false; false];
                     server_done := [false; false; false; true];
                     now := "2018-01-01T00:00:00" |} eq_refl)
           false [] eq_refl).
Defined.
